(** * The aubio silence detector Vamp plugin (plugins/Silence.cpp)

    A shallow embedding of class [Silence]: its constructor, [initialise],
    [reset], [getParameter], [setParameter], [process] and
    [getRemainingFeatures], followed by the properties of the streaming
    state machine and of the boundary refinement that [process] performs.

    Conventions.
    - [size_t] values are integers in [0, 2^64); every [size_t] operation of
      the source is written with its wrap-around ([size_add], [size_sub],
      [size_mul]).  [long] is the 64-bit signed range ([long_of]).
    - The two sample buffers live in a store indexed by locations, so that
      the pointer exchange at the end of [process] is an exchange of
      locations and not of contents.
    - C++ code that reads or writes outside an allocated array, or through a
      null pointer, has no defined behaviour: the embedding returns [Fault].
    - The two [for] loops of the refinement whose step is a run-time value
      take a fuel argument; [OutOfFuel] means the loop was still running.
    - What the plugin takes from libraries outside the repository is a
      parameter of the development: the float type, aubio's level
      classifier, and the Vamp SDK's [RealTime] arithmetic. *)

From Stdlib Require Import ZArith Bool String.
From stdpp Require Import base decidable option list gmap strings.

Local Open Scope Z_scope.

(** ** Outcomes of fallible code *)

Inductive fault : Type :=
  | NullPointer
  | OutOfBounds.

Inductive outcome (A : Type) : Type :=
  | Ok (a : A)
  | Fault (f : fault)
  | OutOfFuel.

Arguments Ok {A} a.
Arguments Fault {A} f.
Arguments OutOfFuel {A}.

#[global] Instance outcome_ret : MRet outcome := fun A a => Ok a.

#[global] Instance outcome_bind : MBind outcome := fun A B k m =>
  match m with
  | Ok a => k a
  | Fault f => Fault f
  | OutOfFuel => OutOfFuel
  end.

#[global] Instance outcome_fmap : FMap outcome := fun A B g m =>
  match m with
  | Ok a => Ok (g a)
  | Fault f => Fault f
  | OutOfFuel => OutOfFuel
  end.

(** Dereferencing a pointer member that the constructor set to 0. *)
Definition deref {A : Type} (p : option A) : outcome A :=
  match p with
  | Some a => Ok a
  | None => Fault NullPointer
  end.

(** A counted [for] loop over the indices [idx], threading a state. *)
Fixpoint for_each {S : Type} (idx : list nat) (body : nat -> S -> outcome S)
    (s : S) : outcome S :=
  match idx with
  | [] => Ok s
  | i :: rest => s' ← body i s; for_each rest body s'
  end.

(** ** Machine integers *)

Definition SIZE_MOD : Z := 2 ^ 64.
Definition UINT_MOD : Z := 2 ^ 32.

Definition size_wrap (z : Z) : Z := z mod SIZE_MOD.
Definition size_add (a b : Z) : Z := size_wrap (a + b).
Definition size_sub (a b : Z) : Z := size_wrap (a - b).
Definition size_mul (a b : Z) : Z := size_wrap (a * b).

(** Conversion to [long] (64-bit two's complement). *)
Definition long_of (z : Z) : Z := (z + 2 ^ 63) mod SIZE_MOD - 2 ^ 63.
(** Unary minus on [long]. *)
Definition long_neg (z : Z) : Z := long_of (- z).
(** Conversion to [unsigned int]. *)
Definition uint_of (z : Z) : Z := z mod UINT_MOD.

(** ** Buffers and the store *)

(** aubio's [fvec_t]: [length] samples for each of [channels] channels,
    reached through [data].  [data] is a location of the store; the store
    holds, per location, the channel arrays. *)
Record fvec_t : Type := {
  fv_length : Z;
  fv_channels : Z;
  fv_data : nat
}.

Section Plugin.

(** [float], also aubio's [smpl_t]. *)
Variable float : Type.
(** Conversion of the integer and decimal literals of the source. *)
Variable float_of_Z : Z -> float.
(** [lrintf] of libm. *)
Variable lrintf : float -> Z.

(** aubio's level classifier [aubio_silence_detection(vec, threshold)],
    applied to the samples [vec] gives access to: one list per channel,
    [vec.length] samples each. *)
Variable aubio_silence_detection : list (list float) -> float -> bool.

(** [Vamp::RealTime], its [operator+] and [RealTime::frame2RealTime]. *)
Variable RealTime : Type.
Variable rt_add : RealTime -> RealTime -> RealTime.
Variable frame2RealTime : Z -> Z -> RealTime.

Abbreviation store := (list (list (list float))).

(** [new_fvec(length, channels)] of aubio: fresh zero-filled channel
    arrays. *)
Definition new_fvec (length channels : Z) (h : store) : fvec_t * store :=
  ({| fv_length := length; fv_channels := channels; fv_data := List.length h |},
   h ++ [replicate (Z.to_nat channels) (replicate (Z.to_nat length) (float_of_Z 0))]).

(** [fvec_write_sample(s, data, channel, position)] of aubio:
    [s->data[channel][position] = data]. *)
Definition fvec_write_sample (h : store) (s : fvec_t) (data : float)
    (channel position : nat) : outcome store :=
  match h !! fv_data s with
  | None => Fault OutOfBounds
  | Some rows =>
      match rows !! channel with
      | None => Fault OutOfBounds
      | Some row =>
          if decide (position < List.length row)%nat
          then Ok (<[fv_data s := <[channel := <[position := data]> row]> rows]> h)
          else Fault OutOfBounds
      end
  end.

(** [inputBuffers[j][i]]. *)
Definition input_sample (inputBuffers : list (list float)) (j i : nat)
    : outcome float :=
  match inputBuffers !! j with
  | None => Fault OutOfBounds
  | Some chan =>
      match chan !! i with
      | None => Fault OutOfBounds
      | Some x => Ok x
      end
  end.

(** The samples a vector with [length = len], [channels = ch] and channel
    pointers [rows[j] + start] gives access to. *)
Definition window (rows : list (list float)) (start len ch : Z)
    : list (list float) :=
  (fun row => take (Z.to_nat len) (drop (Z.to_nat start) row))
    <$> take (Z.to_nat ch) rows.

(** All of those samples lie inside the channel arrays. *)
Definition window_ok (rows : list (list float)) (start len ch : Z) : Prop :=
  (Z.to_nat ch <= List.length rows)%nat /\ 0 <= start /\ 0 <= len /\
  Forall (fun row => start + len <= Z.of_nat (List.length row))
         (take (Z.to_nat ch) rows).

#[global] Instance window_ok_dec rows start len ch :
  Decision (window_ok rows start len ch).
Proof. unfold window_ok. apply _. Defined.

(** Reading a vector for classification. *)
Definition fvec_read (rows : list (list float)) (start len ch : Z)
    : outcome (list (list float)) :=
  if decide (window_ok rows start len ch)
  then Ok (window rows start len ch)
  else Fault OutOfBounds.

(** ** The plugin object *)

Record Silence : Type := {
  m_inputSampleRate : float;
  m_ibuf : option fvec_t;
  m_pbuf : option fvec_t;
  m_tmpptrs : option Z;          (* capacity of the pointer array *)
  m_threshold : float;
  m_prevSilent : bool;
  m_first : bool;
  m_channelCount : Z;
  m_stepSize : Z;
  m_blockSize : Z;
  heap : store
}.

(** [Silence::Silence(inputSampleRate)].  The constructor does not
    initialise [m_channelCount], [m_stepSize] and [m_blockSize]; their
    indeterminate values are the arguments [c0 s0 b0]. *)
Definition Silence_new (inputSampleRate : float) (c0 s0 b0 : Z) : Silence :=
  {| m_inputSampleRate := inputSampleRate;
     m_ibuf := None;
     m_pbuf := None;
     m_tmpptrs := None;
     m_threshold := float_of_Z (-70);
     m_prevSilent := false;
     m_first := true;
     m_channelCount := c0;
     m_stepSize := s0;
     m_blockSize := b0;
     heap := [] |}.

(** [Silence::initialise(channels, stepSize, blockSize)]; it returns
    [true]. *)
Definition initialise (st : Silence) (channels stepSize blockSize : Z)
    : Silence * bool :=
  let '(ib, h1) := new_fvec stepSize channels (heap st) in
  let '(pb, h2) := new_fvec stepSize channels h1 in
  ({| m_inputSampleRate := m_inputSampleRate st;
      m_ibuf := Some ib;
      m_pbuf := Some pb;
      m_tmpptrs := Some channels;
      m_threshold := m_threshold st;
      m_prevSilent := m_prevSilent st;
      m_first := m_first st;
      m_channelCount := channels;
      m_stepSize := stepSize;
      m_blockSize := blockSize;
      heap := h2 |}, true).

(** [Silence::reset()]. *)
Definition reset (st : Silence) : Silence :=
  {| m_inputSampleRate := m_inputSampleRate st;
     m_ibuf := m_ibuf st;
     m_pbuf := m_pbuf st;
     m_tmpptrs := m_tmpptrs st;
     m_threshold := m_threshold st;
     m_prevSilent := m_prevSilent st;
     m_first := true;
     m_channelCount := m_channelCount st;
     m_stepSize := m_stepSize st;
     m_blockSize := m_blockSize st;
     heap := heap st |}.

(** [Silence::getParameter(param)]. *)
Definition getParameter (st : Silence) (param : string) : float :=
  if bool_decide (param = "silencethreshold"%string)
  then m_threshold st
  else float_of_Z 0.

(** [Silence::setParameter(param, value)]. *)
Definition setParameter (st : Silence) (param : string) (value : float)
    : Silence :=
  if bool_decide (param = "silencethreshold"%string)
  then {| m_inputSampleRate := m_inputSampleRate st;
          m_ibuf := m_ibuf st;
          m_pbuf := m_pbuf st;
          m_tmpptrs := m_tmpptrs st;
          m_threshold := value;
          m_prevSilent := m_prevSilent st;
          m_first := m_first st;
          m_channelCount := m_channelCount st;
          m_stepSize := m_stepSize st;
          m_blockSize := m_blockSize st;
          heap := heap st |}
  else st.

(** ** Features *)

(** [Vamp::Plugin::Feature], the members [process] sets. *)
Record Feature : Type := {
  hasTimestamp : bool;
  timestamp : RealTime;
  values : list float
}.

(** [FeatureSet] is [std::map<int, FeatureList>]. *)
Abbreviation FeatureSet := (gmap Z (list Feature)).

(** [fs[k].push_back(f)]. *)
Definition push_back (k : Z) (f : Feature) (fs : FeatureSet) : FeatureSet :=
  <[k := default [] (fs !! k) ++ [f]]> fs.

(** Lines 253-264 of [process]: the level sample on output 2, then the
    same feature with its values cleared on output 0 (silent) or 1. *)
Definition emit (silent : bool) (featureStamp : RealTime) : FeatureSet :=
  let feature :=
    {| hasTimestamp := true; timestamp := featureStamp;
       values := [float_of_Z (if silent then 0 else 1)] |} in
  let returnFeatures := push_back 2 feature ∅ in
  let feature :=
    {| hasTimestamp := true; timestamp := featureStamp; values := [] |} in
  if silent then push_back 0 feature returnFeatures
  else push_back 1 feature returnFeatures.

(** ** Boundary refinement (the block "refine our result" of [process]) *)

(** [size_t incr = 16; if (incr > m_stepSize/8) incr = m_stepSize/8;] *)
Definition search_incr (stepSize : Z) : Z :=
  if decide (16 > stepSize / 8) then stepSize / 8 else 16.

(** [vec.length = incr * 4]. *)
Definition vec_length (stepSize : Z) : Z := size_mul (search_incr stepSize) 4.

Section Search.

Variables (stepSize channelCount : Z) (threshold : float) (silent : bool).
(** [m_tmpptrs], and the channel arrays behind [m_ibuf->data] and
    [m_pbuf->data]. *)
Variables (tmpptrs : option Z) (irows prows : list (list float)).

Let incr : Z := search_incr stepSize.

(** The inner loops [for (size_t j = 0; j < m_channelCount; ++j)
    m_tmpptrs[j] = ...]: the stores into the pointer array. *)
Definition tmpptrs_store : outcome unit :=
  for_each (seq 0 (Z.to_nat channelCount)) (fun j _ =>
    cap ← deref tmpptrs;
    if decide (Z.of_nat j < cap) then Ok () else Fault OutOfBounds) ().

(** Lines 220-230: [for (size_t i = 0; i < m_stepSize - incr * 4; i += incr)],
    entered with the loop counter [i] and the current [off]. *)
Fixpoint forward_search (fuel : nat) (i off : Z) : outcome Z :=
  match fuel with
  | O => OutOfFuel
  | S fuel' =>
      if decide (i < size_sub stepSize (size_mul incr 4)) then
        _ ← tmpptrs_store;
        vec ← fvec_read irows i (vec_length stepSize) channelCount;
        let subsilent := aubio_silence_detection vec threshold in
        if bool_decide (silent = subsilent) then Ok (long_of i)
        else forward_search fuel' (size_add i incr) off
      else Ok off
  end.

(** Lines 233-245: [for (size_t i = 0; i < m_stepSize - incr; i += incr)],
    probing at [m_pbuf->data[j] + m_stepSize - i - incr]. *)
Fixpoint backward_search (fuel : nat) (i off : Z) : outcome Z :=
  match fuel with
  | O => OutOfFuel
  | S fuel' =>
      if decide (i < size_sub stepSize incr) then
        _ ← tmpptrs_store;
        vec ← fvec_read prows (stepSize - i - incr) (vec_length stepSize)
                channelCount;
        let subsilent := aubio_silence_detection vec threshold in
        if negb subsilent then Ok (long_neg (long_of i))
        else backward_search fuel' (size_add i incr) off
      else Ok off
  end.

(** Lines 207-247: the offset [off] the refinement leaves. *)
Definition refine (fuel : nat) : outcome Z :=
  off ← forward_search fuel 0 0;
  if silent && bool_decide (off = 0)
  then backward_search fuel 0 off
  else Ok off.

End Search.

(** ** Block processing *)

(** Lines 190-194: copy the block into [m_ibuf]. *)
Definition copy_block (inputBuffers : list (list float))
    (stepSize channelCount : Z) (ibuf : fvec_t) (h : store) : outcome store :=
  for_each (seq 0 (Z.to_nat stepSize)) (fun i h =>
    for_each (seq 0 (Z.to_nat channelCount)) (fun j h =>
      x ← input_sample inputBuffers j i;
      fvec_write_sample h ibuf x j i) h) h.

(** The channel arrays behind a vector's [data]; a pointer to no
    allocation gives access to no sample. *)
Definition rows_of (h : store) (v : fvec_t) : list (list float) :=
  default [] (h !! fv_data v).

(** Lines 199-268, given the block's classification: the features to
    return and whether the branch [m_first || m_prevSilent != silent] was
    taken. *)
Definition detect (fuel : nat) (st : Silence) (irows prows : list (list float))
    (silent : bool) (timestamp : RealTime) : outcome (FeatureSet * bool) :=
  if m_first st || xorb (m_prevSilent st) silent then
    featureStamp ←
      (if (silent && negb (m_first st)) || negb silent then
         off ← refine (m_stepSize st) (m_channelCount st) (m_threshold st)
                 silent (m_tmpptrs st) irows prows fuel;
         Ok (rt_add timestamp
               (frame2RealTime off (uint_of (lrintf (m_inputSampleRate st)))))
       else Ok timestamp);
    Ok (emit silent featureStamp, true)
  else Ok (∅, false).

(** Lines 266-267 (when the branch was taken) and 273-275: record the
    classification and exchange the [data] pointers of the two vectors. *)
Definition finish (st : Silence) (ib pb : fvec_t) (h : store)
    (changed silent : bool) : Silence :=
  {| m_inputSampleRate := m_inputSampleRate st;
     m_ibuf := Some {| fv_length := fv_length ib;
                       fv_channels := fv_channels ib;
                       fv_data := fv_data pb |};
     m_pbuf := Some {| fv_length := fv_length pb;
                       fv_channels := fv_channels pb;
                       fv_data := fv_data ib |};
     m_tmpptrs := m_tmpptrs st;
     m_threshold := m_threshold st;
     m_prevSilent := if changed then silent else m_prevSilent st;
     m_first := if changed then false else m_first st;
     m_channelCount := m_channelCount st;
     m_stepSize := m_stepSize st;
     m_blockSize := m_blockSize st;
     heap := h |}.

(** [Silence::process(inputBuffers, timestamp)]. *)
Definition process (fuel : nat) (st : Silence)
    (inputBuffers : list (list float)) (timestamp : RealTime)
    : outcome (Silence * FeatureSet) :=
  ib ← deref (m_ibuf st);
  pb ← deref (m_pbuf st);
  h ← copy_block inputBuffers (m_stepSize st) (m_channelCount st) ib (heap st);
  let irows := rows_of h ib in
  whole ← fvec_read irows 0 (fv_length ib) (fv_channels ib);
  let silent := aubio_silence_detection whole (m_threshold st) in
  r ← detect fuel st irows (rows_of h pb) silent timestamp;
  Ok (finish st ib pb h r.2 silent, r.1).

(** [Silence::getRemainingFeatures()]. *)
Definition getRemainingFeatures (st : Silence) : FeatureSet := ∅.

End Plugin.

Arguments m_inputSampleRate {float} s.
Arguments m_ibuf {float} s.
Arguments m_pbuf {float} s.
Arguments m_tmpptrs {float} s.
Arguments m_threshold {float} s.
Arguments m_prevSilent {float} s.
Arguments m_first {float} s.
Arguments m_channelCount {float} s.
Arguments m_stepSize {float} s.
Arguments m_blockSize {float} s.
Arguments heap {float} s.
Arguments hasTimestamp {float RealTime} f.
Arguments timestamp {float RealTime} f.
Arguments values {float RealTime} f.
Arguments new_fvec {float} float_of_Z length channels h.
Arguments fvec_write_sample {float} h s data channel position.
Arguments input_sample {float} inputBuffers j i.
Arguments window {float} rows start len ch.
Arguments window_ok {float} rows start len ch.
Arguments fvec_read {float} rows start len ch.
Arguments copy_block {float} inputBuffers stepSize channelCount ibuf h.
Arguments rows_of {float} h v.
Arguments forward_search {float} aubio_silence_detection stepSize channelCount
  threshold silent tmpptrs irows fuel i off.
Arguments backward_search {float} aubio_silence_detection stepSize channelCount
  threshold tmpptrs prows fuel i off.
Arguments refine {float} aubio_silence_detection stepSize channelCount
  threshold silent tmpptrs irows prows fuel.
Arguments emit {float} float_of_Z {RealTime} silent featureStamp.
Arguments push_back {float RealTime} k f fs.
Arguments detect {float} float_of_Z lrintf aubio_silence_detection {RealTime}
  rt_add frame2RealTime fuel st irows prows silent timestamp.
Arguments finish {float} st ib pb h changed silent.
Arguments Silence_new {float} float_of_Z inputSampleRate c0 s0 b0.
Arguments initialise {float} float_of_Z st channels stepSize blockSize.
Arguments reset {float} st.
Arguments getParameter {float} float_of_Z st param.
Arguments setParameter {float} st param value.
Arguments process {float} float_of_Z lrintf aubio_silence_detection {RealTime}
  rt_add frame2RealTime fuel st inputBuffers timestamp.

(** ** A test host

    Integer samples and an integer threshold in dB; time counted in frames.
    The classifier is the mean-energy test: a vector is silent when it has
    samples and their mean square is below [10^(threshold/10)].  A vector
    without samples is never silent (aubio divides by the length and the
    comparison of the resulting NaN fails). *)
Module Host.

Definition energy (vec : list (list Z)) : Z :=
  foldr Z.add 0 ((fun x => x * x) <$> concat vec).

Definition level_below (vec : list (list Z)) (threshold : Z) : bool :=
  let n := Z.of_nat (List.length (concat vec)) in
  if decide (n = 0) then false
  else bool_decide (energy vec * 10 ^ ((- threshold) / 10) < n).

Definition frames (off rate : Z) : Z := off.

Definition create : Silence Z := Silence_new id 44100 0 0 0.

Definition init (channels stepSize : Z) : Silence Z :=
  (initialise id create channels stepSize stepSize).1.

Definition run (fuel : nat) (st : Silence Z) (block : list (list Z)) (t : Z)
    : outcome (Silence Z * gmap Z (list (Feature Z Z))) :=
  process id id level_below Z.add frames fuel st block t.

(** One channel of [n] samples of amplitude [a]. *)
Definition tone (n : nat) (a : Z) : list (list Z) := [replicate n a].

(** One channel: [n] samples of silence followed by [m] of amplitude 1. *)
Definition onset (n m : nat) : list (list Z) := [replicate n 0 ++ replicate m 1].

(** The object a call leaves. *)
Definition after (r : outcome (Silence Z * gmap Z (list (Feature Z Z))))
    : Silence Z :=
  match r with
  | Ok (st, _) => st
  | _ => create
  end.

(** The object after a first, loud block, with a step of 8 and of 4. *)
Definition loud8 : Silence Z :=
  Eval vm_compute in after (run 8 (init 1 8) (tone 8 1) 0).
Definition loud4 : Silence Z :=
  Eval vm_compute in after (run 8 (init 1 4) (tone 4 1) 0).

(** A classifier that declares silent any vector that is not one channel
    of 16 samples, and is [level_below] on those. *)
Definition only16 (vec : list (list Z)) (threshold : Z) : bool :=
  if decide (List.length <$> vec = [16%nat]) then level_below vec threshold
  else true.

End Host.

(** ** Plugin metadata and descriptors *)

(** [Silence::getIdentifier], [getName], [getDescription], [getMaker],
    [getPluginVersion], [getCopyright]. *)
Definition getIdentifier : string := "aubiosilence".
Definition getName : string := "Aubio Silence Detector".
Definition getDescription : string := "Detect levels below a certain threshold".
Definition getMaker : string := "Paul Brossier (plugin by Chris Cannam)".
Definition getPluginVersion : Z := 1.
Definition getCopyright : string := "GPL".

(** [Silence::getPreferredStepSize] and [getPreferredBlockSize]. *)
Definition getPreferredStepSize : Z := 1024.
Definition getPreferredBlockSize : Z := 1024.

(** [OutputDescriptor::SampleType] of the Vamp SDK. *)
Inductive SampleType : Type :=
  | OneSamplePerStep
  | FixedSampleRate
  | VariableSampleRate.

Section Descriptors.

Variable float : Type.
Variable float_of_Z : Z -> float.

(** [Vamp::PluginBase::ParameterDescriptor], the members
    [getParameterDescriptors] assigns. *)
Record ParameterDescriptor : Type := {
  pd_identifier : string;
  pd_name : string;
  pd_minValue : float;
  pd_maxValue : float;
  pd_defaultValue : float;
  pd_unit : string;
  pd_isQuantized : bool
}.

(** [Silence::getParameterDescriptors()]. *)
Definition getParameterDescriptors : list ParameterDescriptor :=
  let list := [] in
  let desc :=
    {| pd_identifier := "silencethreshold";
       pd_name := "Silence Threshold";
       pd_minValue := float_of_Z (-120);
       pd_maxValue := float_of_Z 0;
       pd_defaultValue := float_of_Z (-70);
       pd_unit := "dB";
       pd_isQuantized := false |} in
  list ++ [desc].

(** [Vamp::Plugin::OutputDescriptor], the members [getOutputDescriptors]
    assigns for at least one output. *)
Record OutputDescriptor : Type := {
  od_identifier : string;
  od_name : string;
  od_description : string;
  od_hasFixedBinCount : bool;
  od_binCount : Z;
  od_hasKnownExtents : bool;
  od_minValue : float;
  od_maxValue : float;
  od_isQuantized : bool;
  od_quantizeStep : float;
  od_sampleType : SampleType
}.

(** The default-constructed [OutputDescriptor d] of the Vamp SDK. *)
Variable d0 : OutputDescriptor.

(** [Silence::getOutputDescriptors()].  The one descriptor [d] is
    assigned to and pushed three times: a member not assigned for an
    output keeps the value it had for the output before. *)
Definition getOutputDescriptors : list OutputDescriptor :=
  let list := [] in
  let d := d0 in
  let d :=
    {| od_identifier := "silencestart";
       od_name := "Starts of Silent Regions";
       od_description :=
         "Return a single instant at the point where each silent region begins";
       od_hasFixedBinCount := true;
       od_binCount := 0;
       od_hasKnownExtents := od_hasKnownExtents d;
       od_minValue := od_minValue d;
       od_maxValue := od_maxValue d;
       od_isQuantized := od_isQuantized d;
       od_quantizeStep := od_quantizeStep d;
       od_sampleType := VariableSampleRate |} in
  let list := list ++ [d] in
  let d :=
    {| od_identifier := "silenceend";
       od_name := "Ends of Silent Regions";
       od_description :=
         "Return a single instant at the point where each silent region ends";
       od_hasFixedBinCount := true;
       od_binCount := 0;
       od_hasKnownExtents := od_hasKnownExtents d;
       od_minValue := od_minValue d;
       od_maxValue := od_maxValue d;
       od_isQuantized := od_isQuantized d;
       od_quantizeStep := od_quantizeStep d;
       od_sampleType := VariableSampleRate |} in
  let list := list ++ [d] in
  let d :=
    {| od_identifier := "silencelevel";
       od_name := "Silence Test";
       od_description :=
         "Return a function that switches from 1 to 0 when silence falls, and back again when it ends";
       od_hasFixedBinCount := true;
       od_binCount := 1;
       od_hasKnownExtents := true;
       od_minValue := float_of_Z 0;
       od_maxValue := float_of_Z 1;
       od_isQuantized := true;
       od_quantizeStep := float_of_Z 1;
       od_sampleType := VariableSampleRate |} in
  list ++ [d].

End Descriptors.

Arguments pd_identifier {float} p.
Arguments pd_name {float} p.
Arguments pd_minValue {float} p.
Arguments pd_maxValue {float} p.
Arguments pd_defaultValue {float} p.
Arguments pd_unit {float} p.
Arguments pd_isQuantized {float} p.
Arguments getParameterDescriptors {float} float_of_Z.
Arguments od_identifier {float} o.
Arguments od_name {float} o.
Arguments od_description {float} o.
Arguments od_hasFixedBinCount {float} o.
Arguments od_binCount {float} o.
Arguments od_hasKnownExtents {float} o.
Arguments od_minValue {float} o.
Arguments od_maxValue {float} o.
Arguments od_isQuantized {float} o.
Arguments od_quantizeStep {float} o.
Arguments od_sampleType {float} o.
Arguments getOutputDescriptors {float} float_of_Z d0.

(** The test host's default output descriptor. *)
Module HostOutputs.

Definition blank : OutputDescriptor Z :=
  {| od_identifier := ""; od_name := ""; od_description := "";
     od_hasFixedBinCount := false; od_binCount := 0;
     od_hasKnownExtents := false; od_minValue := 0; od_maxValue := 0;
     od_isQuantized := false; od_quantizeStep := 0;
     od_sampleType := OneSamplePerStep |}.

(** The object after [loud8] has processed a further, different block. *)
Definition loud8b : Silence Z :=
  Eval vm_compute in Host.after (Host.run 8 Host.loud8 (Host.onset 4 4) 8).

(** The object after a first, silent block, and after a loud block has
    followed it. *)
Definition quiet8 : Silence Z :=
  Eval vm_compute in Host.after (Host.run 0 (Host.init 1 8) (Host.tone 8 0) 0).
Definition ended8 : Silence Z :=
  Eval vm_compute in Host.after (Host.run 8 quiet8 (Host.tone 8 1) 8).

(** [loud8] with the threshold raised to 0 dB, and a block that is silent
    at that threshold although its first four samples are not. *)
Definition loud8_0dB : Silence Z := setParameter Host.loud8 "silencethreshold" 0.
Definition fade : list (list Z) := [[1; 1; 1; 1; 0; 0; 0; 0]].

(** A block with more samples and more channels than the step needs. *)
Definition padded : list (list Z) := [replicate 8 1 ++ [5; 5]; [9]].

End HostOutputs.

(** A feature as an output descriptor announces it: on a
    variable-sample-rate output it carries a timestamp, and it has as many
    values as the output has bins. *)
Definition conforms {float RealTime : Type} (d : OutputDescriptor float)
    (f : Feature float RealTime) : Prop :=
  od_sampleType d = VariableSampleRate /\
  od_hasFixedBinCount d = true /\
  hasTimestamp f = true /\
  Z.of_nat (List.length (values f)) = od_binCount d.

(** ** Vocabulary of the properties *)

(** [ch] channel arrays of [len] samples each. *)
Definition shaped {A : Type} (rows : list (list A)) (ch len : Z) : Prop :=
  List.length rows = Z.to_nat ch /\
  Forall (fun row => List.length row = Z.to_nat len) rows.

(** The sample [rows[j][i]], if it exists. *)
Definition cell {A : Type} (rows : list (list A)) (j i : nat) : option A :=
  rows !! j ≫= fun row => row !! i.

(** The object after [initialise]: both vectors allocated with the recorded
    sizes behind distinct [data] pointers, the pointer array allocated for
    the recorded channel count.  The sizes fit aubio's [uint_t]. *)
Definition initialised {float : Type} (st : Silence float) : Prop :=
  exists ib pb irows prows,
    m_ibuf st = Some ib /\ m_pbuf st = Some pb /\
    fv_data ib <> fv_data pb /\
    fv_length ib = m_stepSize st /\ fv_channels ib = m_channelCount st /\
    fv_length pb = m_stepSize st /\ fv_channels pb = m_channelCount st /\
    heap st !! fv_data ib = Some irows /\
    heap st !! fv_data pb = Some prows /\
    shaped irows (m_channelCount st) (m_stepSize st) /\
    shaped prows (m_channelCount st) (m_stepSize st) /\
    m_tmpptrs st = Some (m_channelCount st) /\
    0 <= m_stepSize st < UINT_MOD /\ 0 <= m_channelCount st < UINT_MOD.

(** The caller's block has the samples [process] copies. *)
Definition block_ok {float : Type} (st : Silence float)
    (inputBuffers : list (list float)) : Prop :=
  window_ok inputBuffers 0 (m_stepSize st) (m_channelCount st).

(** The samples of the block: the first [m_stepSize] samples of the first
    [m_channelCount] channels. *)
Definition block_of {float : Type} (st : Silence float)
    (inputBuffers : list (list float)) : list (list float) :=
  window inputBuffers 0 (m_stepSize st) (m_channelCount st).

(** The location behind [m_ibuf->data] and [m_pbuf->data]. *)
Definition ibuf_data {float : Type} (st : Silence float) : option nat :=
  fv_data <$> m_ibuf st.
Definition pbuf_data {float : Type} (st : Silence float) : option nat :=
  fv_data <$> m_pbuf st.

(** The samples held by the Previous-Block Buffer. *)
Definition previous_block {float : Type} (st : Silence float)
    : option (list (list float)) :=
  l ← pbuf_data st; heap st !! l.

(** The classification of the caller's block (line 196). *)
Definition block_silent {float : Type}
    (aubio_silence_detection : list (list float) -> float -> bool)
    (st : Silence float) (inputBuffers : list (list float)) : bool :=
  aubio_silence_detection (block_of st inputBuffers) (m_threshold st).

(** The window start positions [0, incr, 2*incr, ...] below [bound], each
    listed once (with a zero step, position 0 alone). *)
Definition scan_positions (incr bound : Z) : list Z :=
  if decide (incr = 0) then (if decide (0 < bound) then [0] else [])
  else (fun k => Z.of_nat k * incr)
         <$> seq 0 (Z.to_nat ((bound + incr - 1) / incr)).

(** The first position accepted by [accept], or 0 when there is none. *)
Definition first_match (accept : Z -> bool) (positions : list Z) : Z :=
  default 0 (List.find accept positions).

(** A probe of the window of [len] samples at [i] confirms the block's
    classification (line 225: [silent == subsilent]). *)
Definition confirms {float : Type}
    (aubio_silence_detection : list (list float) -> float -> bool)
    (threshold : float) (silent : bool) (rows : list (list float))
    (len ch : Z) (i : Z) : bool :=
  bool_decide (silent = aubio_silence_detection (window rows i len ch) threshold).

(** The Level Signal sample (on output 2) and the Transition Event (an
    instant on output 0, "silence start", or 1, "silence end"). *)
Definition level_sample {float RealTime : Type} (float_of_Z : Z -> float)
    (stamp : RealTime) (silent : bool) : Feature float RealTime :=
  {| hasTimestamp := true; timestamp := stamp;
     values := [float_of_Z (if silent then 0 else 1)] |}.

Definition instant {float RealTime : Type} (stamp : RealTime)
    : Feature float RealTime :=
  {| hasTimestamp := true; timestamp := stamp; values := [] |}.

(** One Level Signal sample and one Transition Event, both at [stamp]. *)
Definition reported {float RealTime : Type} (float_of_Z : Z -> float)
    (silent : bool) (stamp : RealTime) : gmap Z (list (Feature float RealTime)) :=
  {[ 2 := [level_sample float_of_Z stamp silent];
     (if silent then 0 else 1) := [instant stamp] ]}.

(** * Properties *)

(** ** Machine arithmetic of the refinement *)

Lemma size_wrap_small z : 0 <= z < SIZE_MOD -> size_wrap z = z.
Proof. intros H. unfold size_wrap. by apply Z.mod_small. Qed.

Lemma long_of_small z : - 2 ^ 63 <= z < 2 ^ 63 -> long_of z = z.
Proof.
  intros H. unfold long_of, SIZE_MOD.
  rewrite Z.mod_small; lia.
Qed.

Lemma search_incr_min s : search_incr s = Z.min 16 (s / 8).
Proof. unfold search_incr. case_decide; lia. Qed.

Lemma search_incr_range s : 0 <= s -> 0 <= search_incr s <= 16.
Proof.
  intros H. rewrite search_incr_min.
  assert (0 <= s / 8) by (apply Z.div_pos; lia). lia.
Qed.

Lemma search_incr_pos s : 8 <= s -> 1 <= search_incr s.
Proof.
  intros H. rewrite search_incr_min.
  assert (1 <= s / 8) by (apply Z.div_le_lower_bound; lia). lia.
Qed.

Lemma search_incr_zero s : 0 <= s < 8 -> search_incr s = 0.
Proof.
  intros H. rewrite search_incr_min.
  rewrite Z.div_small by lia. lia.
Qed.

Lemma search_incr_fits s : 0 <= s -> 8 * search_incr s <= s.
Proof.
  intros H. rewrite search_incr_min.
  pose proof (Z.mul_div_le s 8). lia.
Qed.

Lemma vec_length_eq s : 0 <= s -> vec_length s = 4 * search_incr s.
Proof.
  intros H. unfold vec_length, size_mul.
  pose proof (search_incr_range s H).
  rewrite size_wrap_small; [lia | unfold SIZE_MOD; lia].
Qed.

Lemma forward_bound_eq s :
  0 <= s < SIZE_MOD ->
  size_sub s (size_mul (search_incr s) 4) = s - 4 * search_incr s.
Proof.
  intros H. fold (vec_length s). rewrite vec_length_eq by lia.
  pose proof (search_incr_range s). pose proof (search_incr_fits s).
  unfold size_sub. rewrite size_wrap_small; lia.
Qed.

Lemma backward_bound_eq s :
  0 <= s < SIZE_MOD -> size_sub s (search_incr s) = s - search_incr s.
Proof.
  intros H.
  pose proof (search_incr_range s). pose proof (search_incr_fits s).
  unfold size_sub. rewrite size_wrap_small; lia.
Qed.

Lemma size_add_small a b : 0 <= a -> 0 <= b -> a + b < SIZE_MOD -> size_add a b = a + b.
Proof. intros. unfold size_add. rewrite size_wrap_small; lia. Qed.

(** ** Counted loops *)

Lemma for_each_inv {S : Type} (P : nat -> S -> Prop) idx
    (body : nat -> S -> outcome S) s :
  P 0%nat s ->
  (forall k i s, idx !! k = Some i -> P k s ->
     exists s', body i s = Ok s' /\ P (Datatypes.S k) s') ->
  exists s', for_each idx body s = Ok s' /\ P (List.length idx) s'.
Proof.
  revert P s. induction idx as [|i idx IH]; intros P s H0 Hstep; simpl.
  - eauto.
  - destruct (Hstep 0%nat i s eq_refl H0) as (s1 & -> & H1). simpl.
    apply (IH (fun k => P (Datatypes.S k))); [done|].
    intros k j s2 Hk. by apply (Hstep (Datatypes.S k)).
Qed.

(** ** Channel arrays and their windows *)

Section Rows.

Context {A : Type}.
Implicit Types (rows : list (list A)) (j i : nat).

Lemma cell_shaped rows ch len j i :
  shaped rows ch len -> (j < Z.to_nat ch)%nat -> (i < Z.to_nat len)%nat ->
  exists row x, rows !! j = Some row /\ List.length row = Z.to_nat len /\
                row !! i = Some x.
Proof.
  intros [Hl Hf] Hj Hi.
  destruct (lookup_lt_is_Some_2 rows j) as [row Hrow]; [lia|].
  pose proof (proj1 (Forall_lookup _ _) Hf j row Hrow) as Hlen. simpl in Hlen.
  destruct (lookup_lt_is_Some_2 row i) as [x Hx]; [lia|].
  eauto.
Qed.

Lemma cell_insert rows j i x row j' i' :
  rows !! j = Some row -> (i < List.length row)%nat ->
  cell (<[j := <[i := x]> row]> rows) j' i' =
  if decide (j' = j /\ i' = i) then Some x else cell rows j' i'.
Proof.
  intros Hrow Hi. unfold cell.
  pose proof (lookup_lt_Some _ _ _ Hrow) as Hj.
  destruct (decide (j' = j)) as [->|Hne].
  - rewrite list_lookup_insert_eq by done. simpl.
    rewrite Hrow. simpl.
    destruct (decide (i' = i)) as [->|Hni].
    + rewrite list_lookup_insert_eq by done. by rewrite decide_True.
    + rewrite list_lookup_insert_ne by done. rewrite decide_False; [done|tauto].
  - rewrite list_lookup_insert_ne by done. rewrite decide_False; [done|tauto].
Qed.

Lemma shaped_insert rows ch len j i x row :
  shaped rows ch len -> rows !! j = Some row ->
  shaped (<[j := <[i := x]> row]> rows) ch len.
Proof.
  intros [Hl Hf] Hrow. split.
  - by rewrite length_insert.
  - apply Forall_insert; [done|]. rewrite length_insert.
    by apply (proj1 (Forall_lookup _ _) Hf j row).
Qed.

Lemma shaped_ext rows1 rows2 ch len :
  shaped rows1 ch len -> shaped rows2 ch len ->
  (forall j i, (j < Z.to_nat ch)%nat -> (i < Z.to_nat len)%nat ->
     cell rows1 j i = cell rows2 j i) ->
  rows1 = rows2.
Proof.
  intros [Hl1 Hf1] [Hl2 Hf2] Hcell. apply list_eq. intros j.
  destruct (decide (j < Z.to_nat ch)%nat) as [Hj|Hj].
  - destruct (lookup_lt_is_Some_2 rows1 j) as [r1 Hr1]; [lia|].
    destruct (lookup_lt_is_Some_2 rows2 j) as [r2 Hr2]; [lia|].
    rewrite Hr1, Hr2. f_equal.
    pose proof (proj1 (Forall_lookup _ _) Hf1 j r1 Hr1) as Hlen1.
    pose proof (proj1 (Forall_lookup _ _) Hf2 j r2 Hr2) as Hlen2.
    simpl in *. apply list_eq. intros i.
    destruct (decide (i < Z.to_nat len)%nat) as [Hi|Hi].
    + specialize (Hcell j i Hj Hi). unfold cell in Hcell.
      by rewrite Hr1, Hr2 in Hcell.
    + rewrite !lookup_ge_None_2; [done|lia|lia].
  - rewrite !lookup_ge_None_2; [done|lia|lia].
Qed.

Lemma window_ok_shaped rows ch len start n :
  shaped rows ch len -> 0 <= start -> 0 <= n -> start + n <= len ->
  window_ok rows start n ch.
Proof.
  intros [Hl Hf] H1 H2 H3. unfold window_ok. repeat split; try lia.
  apply Forall_take. eapply Forall_impl; [exact Hf|].
  simpl. intros row Hrow. lia.
Qed.

Lemma fvec_read_ok rows ch len start n :
  shaped rows ch len -> 0 <= start -> 0 <= n -> start + n <= len ->
  fvec_read rows start n ch = Ok (window rows start n ch).
Proof.
  intros. unfold fvec_read. rewrite decide_True; [done|].
  by eapply window_ok_shaped.
Qed.

(** With at least one channel, a window that extends past the end of the
    arrays cannot be read. *)
Lemma fvec_read_past_end rows ch len start n :
  shaped rows ch len -> 0 < ch -> 0 <= len -> len < start + n ->
  fvec_read rows start n ch = Fault OutOfBounds.
Proof.
  intros [Hl Hf] Hch Hlen Hover. unfold fvec_read.
  rewrite decide_False; [done|].
  intros (_ & _ & _ & Hall).
  destruct (lookup_lt_is_Some_2 rows 0%nat) as [row Hrow]; [lia|].
  pose proof (proj1 (Forall_lookup _ _) Hf _ _ Hrow) as Hrl. simpl in Hrl.
  assert (take (Z.to_nat ch) rows !! 0%nat = Some row) as Ht.
  { rewrite lookup_take_lt by lia. done. }
  pose proof (proj1 (Forall_lookup _ _) Hall _ _ Ht) as Hb. simpl in Hb. lia.
Qed.

Lemma window_whole rows ch len :
  shaped rows ch len -> window rows 0 len ch = rows.
Proof.
  intros [Hl Hf]. unfold window.
  rewrite take_ge by lia.
  rewrite <- (list_fmap_id rows) at 2.
  apply Forall_fmap_ext. eapply Forall_impl; [exact Hf|].
  simpl. intros row Hrow. rewrite drop_0, take_ge; [done|lia].
Qed.

Lemma window_block_shaped rows ch len :
  0 <= len -> window_ok rows 0 len ch -> shaped (window rows 0 len ch) ch len.
Proof.
  intros Hlen (Hl & _ & _ & Hall). unfold window. split.
  - rewrite length_fmap, length_take. lia.
  - apply Forall_fmap. eapply Forall_impl; [exact Hall|].
    simpl. intros row Hrow. rewrite drop_0, length_take. lia.
Qed.

Lemma window_block_cell rows ch len j i :
  (j < Z.to_nat ch)%nat -> (i < Z.to_nat len)%nat ->
  cell (window rows 0 len ch) j i = cell rows j i.
Proof.
  intros Hj Hi. unfold cell, window.
  rewrite list_lookup_fmap, lookup_take_lt by done.
  destruct (rows !! j) as [row|]; [simpl|done].
  by rewrite drop_0, lookup_take_lt.
Qed.

End Rows.

(** ** The copy loop and the pointer array *)

Section Copy.

Context {float : Type}.
Implicit Types (h : list (list (list float))) (rows : list (list float)).

Lemma tmpptrs_store_ok ch :
  0 <= ch -> tmpptrs_store ch (Some ch) = Ok ().
Proof.
  intros Hch. unfold tmpptrs_store.
  destruct (for_each_inv (fun _ _ => True) (seq 0 (Z.to_nat ch))
              (fun j (_ : unit) => cap ← deref (Some ch);
                 if decide (Z.of_nat j < cap) then Ok () else Fault OutOfBounds)
              ()) as (u & Hu & _); [done| |by destruct u].
  intros k i [] Hk _. exists (). split; [|done]. simpl.
  apply lookup_seq in Hk as [-> Hk]. rewrite decide_True; [done|lia].
Qed.

Lemma copy_block_ok inputBuffers s ch ib h rows :
  0 <= s -> 0 <= ch ->
  h !! fv_data ib = Some rows -> shaped rows ch s ->
  window_ok inputBuffers 0 s ch ->
  copy_block inputBuffers s ch ib h
  = Ok (<[fv_data ib := window inputBuffers 0 s ch]> h).
Proof.
  intros Hs Hch Hrows Hshape Hin.
  pose proof (lookup_lt_Some _ _ _ Hrows) as Hloc.
  set (inv := fun (done : nat -> nat -> Prop) h' =>
    exists rows', h' = <[fv_data ib := rows']> h /\ shaped rows' ch s /\
      forall j i, (j < Z.to_nat ch)%nat -> (i < Z.to_nat s)%nat -> done j i ->
        cell rows' j i = cell inputBuffers j i).
  assert (forall j i, (j < Z.to_nat ch)%nat -> (i < Z.to_nat s)%nat ->
            exists x, cell inputBuffers j i = Some x /\
                      input_sample inputBuffers j i = Ok x) as Hinput.
  { intros j i Hj Hi. destruct Hin as (Hl & _ & _ & Hall).
    destruct (lookup_lt_is_Some_2 inputBuffers j) as [chan Hchan]; [lia|].
    assert (take (Z.to_nat ch) inputBuffers !! j = Some chan) as Ht
      by (by rewrite lookup_take_lt).
    pose proof (proj1 (Forall_lookup _ _) Hall _ _ Ht) as Hlen. simpl in Hlen.
    destruct (lookup_lt_is_Some_2 chan i) as [x Hx]; [lia|].
    exists x. unfold cell, input_sample. rewrite Hchan. simpl. by rewrite Hx. }
  unfold copy_block.
  destruct (for_each_inv (fun k => inv (fun _ i => (i < k)%nat))
              (seq 0 (Z.to_nat s))
              (fun i h => for_each (seq 0 (Z.to_nat ch)) (fun j h =>
                 x ← input_sample inputBuffers j i;
                 fvec_write_sample h ib x j i) h) h)
    as (h' & Hh' & rows' & -> & Hsh' & Hcells).
  - exists rows. split; [by rewrite list_insert_id|]. split; [done|].
    intros; lia.
  - intros k i h1 Hk Hinv. apply lookup_seq in Hk as [-> Hk]. simpl.
    destruct (for_each_inv
                (fun k' => inv (fun j i => (i < k)%nat \/ (i = k /\ j < k')%nat))
                (seq 0 (Z.to_nat ch))
                (fun j h => x ← input_sample inputBuffers j k;
                            fvec_write_sample h ib x j k) h1)
      as (h2 & Hh2 & rows2 & -> & Hsh2 & Hc2).
    + destruct Hinv as (rows1 & -> & Hsh1 & Hc1).
      exists rows1. repeat split; try done; try apply Hsh1.
      intros j i Hj Hi [Hlt|[_ Hlt]]; [by apply Hc1|lia].
    + intros k' j h2 Hk' (rows2 & -> & Hsh2 & Hc2).
      apply lookup_seq in Hk' as [-> Hk']. simpl.
      destruct (Hinput k' k) as (x & Hcx & ->); [lia|lia|]. simpl.
      destruct (cell_shaped rows2 ch s k' k Hsh2) as (row & y & Hrow & Hlen & _);
        [lia|lia|].
      unfold fvec_write_sample.
      rewrite list_lookup_insert_eq by done. rewrite Hrow.
      rewrite decide_True by lia.
      eexists. split; [done|].
      exists (<[k' := <[k := x]> row]> rows2).
      split; [by rewrite list_insert_insert_eq|].
      split; [by apply shaped_insert|].
      intros j i Hj Hi Hdone.
      rewrite (cell_insert rows2 k' k x row j i Hrow) by lia.
      case_decide as Heq.
      * destruct Heq as [-> ->]. done.
      * apply Hc2; [done|done|]. lia.
    + rewrite Hh2. eexists. split; [done|].
      exists rows2. split; [done|]. split; [done|].
      rewrite length_seq in Hc2.
      intros j i Hj Hi Hlt. apply Hc2; [done|done|]. lia.
  - rewrite Hh'. do 2 f_equal.
    rewrite length_seq in Hcells.
    apply (shaped_ext _ _ ch s); [done|by apply window_block_shaped|].
    intros j i Hj Hi. rewrite window_block_cell by done.
    by apply Hcells.
Qed.

End Copy.

(** ** Initialisation and the shape of a [process] call *)

Section Lifecycle.

Context {float RealTime : Type}.
Variables (float_of_Z : Z -> float) (lrintf : float -> Z).
Variable aubio_silence_detection : list (list float) -> float -> bool.
Variables (rt_add : RealTime -> RealTime -> RealTime)
          (frame2RealTime : Z -> Z -> RealTime).

Local Abbreviation run :=
  (process float_of_Z lrintf aubio_silence_detection rt_add frame2RealTime).
Local Abbreviation events :=
  (detect float_of_Z lrintf aubio_silence_detection rt_add frame2RealTime).
Local Abbreviation silent_of := (block_silent aubio_silence_detection).

Lemma shaped_zero (ch len : Z) :
  shaped (replicate (Z.to_nat ch) (replicate (Z.to_nat len) (float_of_Z 0)))
         ch len.
Proof.
  split; [by rewrite length_replicate|].
  apply Forall_replicate. by rewrite length_replicate.
Qed.

Lemma initialise_initialised (st : Silence float) channels stepSize blockSize :
  0 <= channels < UINT_MOD -> 0 <= stepSize < UINT_MOD ->
  initialised (initialise float_of_Z st channels stepSize blockSize).1.
Proof.
  intros Hc Hs. unfold initialise, new_fvec. simpl.
  eexists _, _, _, _. simpl.
  split; [done|]. split; [done|]. simpl.
  split; [rewrite length_app; simpl; lia|].
  do 4 (split; [done|]).
  split.
  { rewrite lookup_app_l by (rewrite length_app; simpl; lia).
    rewrite lookup_app_r by lia. by rewrite Nat.sub_diag. }
  split.
  { rewrite lookup_app_r by done. by rewrite Nat.sub_diag. }
  split; [apply shaped_zero|]. split; [apply shaped_zero|]. done.
Qed.

(** A [process] call on an initialised object: the block is copied over
    the storage of [m_ibuf], classified, and the outcome is that of
    lines 199-268 followed by the exchange of the two [data] pointers. *)
Lemma process_eq fuel (st : Silence float) inputBuffers ts :
  initialised st -> block_ok st inputBuffers ->
  exists ib pb prows,
    m_ibuf st = Some ib /\ m_pbuf st = Some pb /\
    fv_data ib <> fv_data pb /\
    heap st !! fv_data pb = Some prows /\
    shaped prows (m_channelCount st) (m_stepSize st) /\
    shaped (block_of st inputBuffers) (m_channelCount st) (m_stepSize st) /\
    run fuel st inputBuffers ts =
      (r ← events fuel st (block_of st inputBuffers) prows
             (silent_of st inputBuffers) ts;
       Ok (finish st ib pb
             (<[fv_data ib := block_of st inputBuffers]> (heap st))
             r.2 (silent_of st inputBuffers), r.1)).
Proof.
  intros (ib & pb & irows & prows & Hib & Hpb & Hne & Hil & Hic & Hpl & Hpc
          & Hirows & Hprows & Hish & Hpsh & Htmp & Hs & Hc) Hblock.
  exists ib, pb, prows.
  assert (shaped (block_of st inputBuffers) (m_channelCount st) (m_stepSize st))
    as Hbsh by (apply window_block_shaped; [lia|done]).
  do 6 (split; [done|]).
  unfold process. rewrite Hib, Hpb. simpl.
  rewrite (copy_block_ok _ _ _ _ _ irows) by (done || lia). simpl.
  unfold rows_of.
  rewrite list_lookup_insert_eq by (by eapply lookup_lt_Some). simpl.
  rewrite Hil, Hic.
  fold (block_of st inputBuffers).
  rewrite (fvec_read_ok _ _ _ _ _ Hbsh) by lia. simpl.
  rewrite (window_whole _ _ _ Hbsh).
  rewrite list_lookup_insert_ne by done. rewrite Hprows. simpl.
  done.
Qed.

End Lifecycle.

(** ** The two searches *)

Section SearchProps.

Context {float : Type}.
Variable aubio_silence_detection : list (list float) -> float -> bool.
Variables (s ch : Z) (thr : float) (silent : bool).
Variables (irows prows : list (list float)).

Hypothesis Hs : 0 <= s < UINT_MOD.
Hypothesis Hch : 0 <= ch.
Hypothesis Hirows : shaped irows ch s.
Hypothesis Hprows : shaped prows ch s.

Local Abbreviation incr := (search_incr s).
Local Abbreviation fwd :=
  (forward_search aubio_silence_detection s ch thr silent (Some ch) irows).
Local Abbreviation bwd :=
  (backward_search aubio_silence_detection s ch thr (Some ch) prows).
Local Abbreviation accept :=
  (confirms aubio_silence_detection thr silent irows (4 * incr) ch).

Lemma uint_lt_size : UINT_MOD < 2 ^ 63.
Proof. unfold UINT_MOD. lia. Qed.

Lemma forward_bound : size_sub s (size_mul incr 4) = s - 4 * incr.
Proof. apply forward_bound_eq. pose proof uint_lt_size. unfold SIZE_MOD. lia. Qed.

Lemma backward_bound : size_sub s incr = s - incr.
Proof. apply backward_bound_eq. pose proof uint_lt_size. unfold SIZE_MOD. lia. Qed.

Lemma positions_shift i n :
  (fun k => i + Z.of_nat k * incr) <$> seq 0 (S n)
  = i :: ((fun k => (i + incr) + Z.of_nat k * incr) <$> seq 0 n).
Proof.
  simpl. f_equal; [lia|].
  rewrite <- fmap_S_seq, <- list_fmap_compose.
  apply list_fmap_ext. intros _ k _. simpl. lia.
Qed.

(** One iteration of the forward loop at a position below the bound. *)
Lemma forward_step fuel i off :
  0 <= i < s - 4 * incr ->
  fwd (S fuel) i off =
    if accept i then Ok i else fwd fuel (i + incr) off.
Proof.
  intros Hi. pose proof uint_lt_size as Hu.
  pose proof (search_incr_range s ltac:(lia)) as Hincr.
  simpl. rewrite forward_bound. rewrite decide_True by lia.
  rewrite tmpptrs_store_ok by done. simpl.
  rewrite vec_length_eq by lia.
  rewrite (fvec_read_ok _ _ _ _ _ Hirows) by lia. simpl.
  unfold confirms. case_bool_decide.
  - by rewrite long_of_small by lia.
  - rewrite size_add_small; [done|lia|lia|unfold SIZE_MOD; lia].
Qed.

(** The forward loop leaves with [off] untouched once the bound is
    reached. *)
Lemma forward_exit fuel i off :
  s - 4 * incr <= i -> fwd (S fuel) i off = Ok off.
Proof.
  intros Hi. simpl. rewrite forward_bound. by rewrite decide_False by lia.
Qed.

Lemma forward_search_from n : forall i fuel,
  0 < incr -> 0 <= i -> (n < fuel)%nat ->
  (n = 0%nat \/ i + (Z.of_nat n - 1) * incr < s - 4 * incr) ->
  s - 4 * incr <= i + Z.of_nat n * incr ->
  fwd fuel i 0 =
    Ok (first_match accept ((fun k => i + Z.of_nat k * incr) <$> seq 0 n)).
Proof.
  induction n as [|n IH]; intros i fuel Hincr Hi Hfuel Hlast Hout.
  - destruct fuel as [|fuel]; [lia|].
    rewrite forward_exit by lia. done.
  - destruct fuel as [|fuel]; [lia|].
    destruct Hlast as [Hlast|Hlast]; [lia|].
    rewrite forward_step by nia.
    rewrite positions_shift. unfold first_match. simpl.
    destruct (accept i); [done|].
    apply IH; lia.
Qed.

(** With a zero step the forward loop stays at position 0: a probe there
    that does not confirm the classification is repeated for ever. *)
Lemma forward_search_stuck fuel :
  incr = 0 -> 0 < s -> accept 0 = false -> fwd fuel 0 0 = OutOfFuel.
Proof.
  intros Hincr Hpos Hrej. induction fuel as [|fuel IH]; [done|].
  rewrite forward_step by lia. rewrite Hrej.
  replace (0 + incr) with 0 by lia. done.
Qed.

(** The first probe of the backward loop starts [incr] samples before the
    end of the previous block and is [4 * incr] samples long: with a
    non-zero step and at least one channel it reads [3 * incr] samples
    past the end of the array. *)
Lemma backward_search_overrun fuel :
  8 <= s -> 0 < ch -> bwd (S fuel) 0 0 = Fault OutOfBounds.
Proof.
  intros H8 Hc. pose proof (search_incr_pos s H8) as Hincr.
  pose proof (search_incr_fits s ltac:(lia)) as Hfit.
  simpl. rewrite backward_bound. rewrite decide_True by lia.
  rewrite tmpptrs_store_ok by done. simpl.
  rewrite vec_length_eq by lia.
  rewrite (fvec_read_past_end _ _ _ _ _ Hprows) by lia. done.
Qed.

(** With a non-zero step both loops leave within one iteration per
    sample. *)
Lemma forward_search_bounded n : forall i fuel off,
  0 < incr -> 0 <= i -> s - 4 * incr - i <= Z.of_nat n -> (n < fuel)%nat ->
  fwd fuel i off <> OutOfFuel.
Proof.
  induction n as [|n IH]; intros i fuel off Hincr Hi Hn Hfuel;
    (destruct fuel as [|fuel]; [lia|]).
  - by rewrite forward_exit by lia.
  - destruct (decide (i < s - 4 * incr)) as [Hlt|Hge].
    + rewrite forward_step by lia.
      destruct (accept i); [done|]. apply IH; lia.
    + by rewrite forward_exit by lia.
Qed.

Lemma backward_search_bounded n : forall i fuel off,
  0 < incr -> 0 <= i -> s - incr - i <= Z.of_nat n -> (n < fuel)%nat ->
  bwd fuel i off <> OutOfFuel.
Proof.
  pose proof uint_lt_size as Hu.
  pose proof (search_incr_range s ltac:(lia)) as Hrange.
  induction n as [|n IH]; intros i fuel off Hincr Hi Hn Hfuel;
    (destruct fuel as [|fuel]; [lia|]); simpl; rewrite backward_bound.
  - by rewrite decide_False by lia.
  - case_decide; [|done].
    rewrite tmpptrs_store_ok by done. simpl.
    unfold fvec_read. case_decide; [simpl|done].
    destruct (negb _); [done|].
    rewrite size_add_small by (unfold SIZE_MOD; lia).
    apply IH; lia.
Qed.

Lemma refine_bounded fuel :
  8 <= s -> (Z.to_nat s <= fuel)%nat ->
  refine aubio_silence_detection s ch thr silent (Some ch) irows prows fuel
  <> OutOfFuel.
Proof.
  intros H8 Hfuel. pose proof (search_incr_pos s H8) as Hincr.
  unfold refine.
  pose proof (forward_search_bounded (Z.to_nat (s - 4)) 0 fuel 0
                ltac:(lia) ltac:(lia) ltac:(lia) ltac:(lia)) as Hf.
  destruct (fwd fuel 0 0) as [off| |]; simpl; try done.
  destruct (silent && bool_decide (off = 0)); [|done].
  apply (backward_search_bounded (Z.to_nat (s - 1))); lia.
Qed.

Lemma scan_positions_spec (step bound i : Z) :
  0 <= step ->
  i ∈ scan_positions step bound <-> 0 <= i < bound /\ (step | i).
Proof.
  intros Hstep. unfold scan_positions.
  destruct (decide (step = 0)) as [->|Hnz].
  { case_decide.
    - rewrite list_elem_of_singleton. split.
      + intros ->. split; [lia|]. by exists 0.
      + intros [_ [q ->]]. lia.
    - split; [by intros ?%elem_of_nil|]. intros [? [q ->]]. lia. }
  rewrite list_elem_of_fmap. setoid_rewrite elem_of_seq.
  pose proof (Z.div_mod (bound + step - 1) step ltac:(lia)) as Hdm.
  pose proof (Z.mod_pos_bound (bound + step - 1) step ltac:(lia)) as Hmod.
  split.
  - intros (k & -> & _ & Hk). split; [|by exists (Z.of_nat k)].
    assert (Z.of_nat k < (bound + step - 1) / step) as Hlt by lia.
    nia.
  - intros [[H0 Hb] [q ->]]. exists (Z.to_nat q).
    assert (0 <= q) by nia.
    split; [lia|]. split; [lia|].
    assert (q < (bound + step - 1) / step); [nia|lia].
Qed.

Lemma forward_search_scan fuel :
  8 <= s -> (Z.to_nat s <= fuel)%nat ->
  fwd fuel 0 0 = Ok (first_match accept (scan_positions incr (s - 4 * incr))).
Proof.
  intros H8 Hfuel.
  pose proof (search_incr_pos s H8) as Hincr.
  pose proof (search_incr_fits s ltac:(lia)) as Hfit.
  set (bound := s - 4 * incr).
  pose proof (Z.div_mod (bound + incr - 1) incr ltac:(lia)) as Hdm.
  pose proof (Z.mod_pos_bound (bound + incr - 1) incr ltac:(lia)) as Hmod.
  assert (0 <= (bound + incr - 1) / incr) as Hq by (apply Z.div_pos; lia).
  rewrite (forward_search_from (Z.to_nat ((bound + incr - 1) / incr)))
    by (subst bound; nia).
  unfold scan_positions. rewrite decide_False by lia. do 2 f_equal.
Qed.

(** Whatever the step size, a forward search that returns has found the
    first confirming position, or none and 0. *)
Lemma forward_search_returns fuel off :
  fwd fuel 0 0 = Ok off ->
  off = first_match accept (scan_positions incr (s - 4 * incr)).
Proof.
  destruct (decide (8 <= s)) as [H8|Hsmall].
  - intros Hret.
    assert (forall n m, (n <= m)%nat -> forall i o r,
              fwd n i o = Ok r -> fwd m i o = Ok r) as Hmono.
    { induction n as [|n IHn]; intros m Hnm i o r; [done|].
      destruct m as [|m]; [lia|]. simpl.
      case_decide; [|done].
      destruct (tmpptrs_store ch (Some ch)); simpl; try done.
      destruct (fvec_read irows i (vec_length s) ch); simpl; try done.
      case_bool_decide; [done|]. apply IHn. lia. }
    pose proof (Hmono fuel (fuel + Z.to_nat s)%nat ltac:(lia) _ _ _ Hret) as Hbig.
    rewrite forward_search_scan in Hbig by (done || lia).
    congruence.
  - assert (incr = 0) as Hz by (apply search_incr_zero; lia).
    unfold scan_positions, first_match. rewrite Hz, decide_True by done.
    replace (s - 4 * 0) with s by lia.
    destruct (decide (0 < s)) as [Hpos|Hzero].
    + assert (forall o, fwd fuel 0 0 = Ok o -> o = 0) as Hzero.
      { induction fuel as [|n IHn]; intros o; [done|].
        rewrite forward_step by lia.
        destruct (accept 0) eqn:Hacc; [congruence|].
        replace (0 + incr) with 0 by lia. apply IHn. }
      intros ->%Hzero. simpl. by destruct (confirms _ _ _ _ _ _ _).
    + destruct fuel as [|n]; [done|].
      rewrite forward_exit by lia. by intros [= <-].
Qed.

(** The forward search started by the refinement scans the window start
    positions [0, incr, 2*incr, ...] below [stepSize - 4*incr]: whenever it
    returns, it returns the first position whose window of [4*incr]
    samples of the current block classifies like the whole block, and 0
    when no position does.  With a step size of at least 8 (a non-zero
    search step) it returns, given fuel for one iteration per sample of
    the block.  The positions are exactly the multiples of [incr] in
    [[0, stepSize - 4*incr)], and each window read lies inside the current
    block. *)
Theorem forward_search_first_match fuel :
  (forall off, fwd fuel 0 0 = Ok off ->
     off = first_match accept (scan_positions incr (s - 4 * incr)))
  /\ (8 <= s -> (Z.to_nat s <= fuel)%nat ->
      fwd fuel 0 0
      = Ok (first_match accept (scan_positions incr (s - 4 * incr))))
  /\ (forall i, i ∈ scan_positions incr (s - 4 * incr) <->
                0 <= i < s - 4 * incr /\ (incr | i))
  /\ (forall i, i ∈ scan_positions incr (s - 4 * incr) ->
        fvec_read irows i (vec_length s) ch = Ok (window irows i (4 * incr) ch)).
Proof.
  pose proof (search_incr_range s ltac:(lia)) as Hincr.
  split; [intros off; apply forward_search_returns|].
  split; [intros H8 Hfuel; by apply forward_search_scan|].
  split; [intros i; apply scan_positions_spec; lia|].
  intros i [Hi _]%scan_positions_spec; [|lia].
  rewrite vec_length_eq by lia.
  apply (fvec_read_ok _ _ _ _ _ Hirows); lia.
Qed.

End SearchProps.

(** ** The probe window *)

Section Probe.

Context {float : Type}.
Variables (detect1 detect2 : list (list float) -> float -> bool).
Variables (s ch : Z) (thr : float) (tmp : option Z).

Lemma fvec_read_shaped (rows : list (list float)) start len vec :
  fvec_read rows start len ch = Ok vec -> shaped vec ch len.
Proof.
  unfold fvec_read. case_decide as Hok; [|done].
  intros [= <-]. destruct Hok as (Hl & Hstart & Hlen & Hall).
  unfold window. split.
  - rewrite length_fmap, length_take. lia.
  - apply Forall_fmap. eapply Forall_impl; [exact Hall|].
    simpl. intros row Hrow. rewrite length_take, length_drop. lia.
Qed.

Hypothesis Hagree :
  forall vec, shaped vec ch (4 * Z.min 16 (s / 8)) -> detect1 vec thr = detect2 vec thr.

Lemma forward_search_agree silent irows fuel : 0 <= s -> forall i off,
  forward_search detect1 s ch thr silent tmp irows fuel i off
  = forward_search detect2 s ch thr silent tmp irows fuel i off.
Proof.
  intros Hs. induction fuel as [|fuel IH]; intros i off; [done|].
  simpl. case_decide; [|done].
  destruct (tmpptrs_store ch tmp); simpl; try done.
  destruct (fvec_read irows i (vec_length s) ch) as [vec| |] eqn:Hread;
    simpl; try done.
  apply fvec_read_shaped in Hread.
  rewrite vec_length_eq, search_incr_min in Hread by done.
  rewrite (Hagree vec Hread). by rewrite IH.
Qed.

Lemma backward_search_agree prows fuel : 0 <= s -> forall i off,
  backward_search detect1 s ch thr tmp prows fuel i off
  = backward_search detect2 s ch thr tmp prows fuel i off.
Proof.
  intros Hs. induction fuel as [|fuel IH]; intros i off; [done|].
  simpl. case_decide; [|done].
  destruct (tmpptrs_store ch tmp); simpl; try done.
  destruct (fvec_read prows _ (vec_length s) ch) as [vec| |] eqn:Hread;
    simpl; try done.
  apply fvec_read_shaped in Hread.
  rewrite vec_length_eq, search_incr_min in Hread by done.
  rewrite (Hagree vec Hread). by rewrite IH.
Qed.

(** Claim C7.  For every step size the search step is
    [min(16, stepSize / 8)] and the vector handed to the classifier has
    length [4 * incr]; the outcome of the forward search, of the backward
    search and of the whole refinement depends on the classifier only
    through its answers on vectors of exactly [4 * incr] samples per
    channel: two classifiers that agree on those give the same outcome. *)
Theorem probe_window_length silent irows prows fuel :
  0 <= s < SIZE_MOD ->
  search_incr s = Z.min 16 (s / 8)
  /\ vec_length s = 4 * search_incr s
  /\ (forall i off,
        forward_search detect1 s ch thr silent tmp irows fuel i off
        = forward_search detect2 s ch thr silent tmp irows fuel i off)
  /\ (forall i off,
        backward_search detect1 s ch thr tmp prows fuel i off
        = backward_search detect2 s ch thr tmp prows fuel i off)
  /\ refine detect1 s ch thr silent tmp irows prows fuel
     = refine detect2 s ch thr silent tmp irows prows fuel.
Proof.
  intros Hs.
  split; [apply search_incr_min|].
  split; [apply vec_length_eq; lia|].
  split; [apply forward_search_agree; lia|].
  split; [apply backward_search_agree; lia|].
  unfold refine. rewrite forward_search_agree by lia.
  destruct (forward_search detect2 _ _ _ _ _ _ _ _ _) as [off| |]; simpl;
    try done.
  destruct (silent && bool_decide (off = 0)); [|done].
  apply backward_search_agree; lia.
Qed.

End Probe.

(** ** The streaming state machine *)

Section Machine.

Context {float RealTime : Type}.
Variables (float_of_Z : Z -> float) (lrintf : float -> Z).
Variable aubio_silence_detection : list (list float) -> float -> bool.
Variables (rt_add : RealTime -> RealTime -> RealTime)
          (frame2RealTime : Z -> Z -> RealTime).

Local Abbreviation run :=
  (process float_of_Z lrintf aubio_silence_detection rt_add frame2RealTime).
Local Abbreviation events :=
  (detect float_of_Z lrintf aubio_silence_detection rt_add frame2RealTime).
Local Abbreviation silent_of := (block_silent aubio_silence_detection).
Local Abbreviation refined st block prows :=
  (refine aubio_silence_detection (m_stepSize st) (m_channelCount st)
     (m_threshold st) (aubio_silence_detection block (m_threshold st))
     (m_tmpptrs st) block prows).
Local Abbreviation stamp_at st ts off :=
  (rt_add ts (frame2RealTime off (uint_of (lrintf (m_inputSampleRate st))))).

Lemma emit_reported silent (stamp : RealTime) :
  emit float_of_Z silent stamp = reported float_of_Z silent stamp.
Proof.
  unfold emit, reported, push_back, level_sample, instant.
  rewrite lookup_empty. simpl.
  destruct silent; rewrite lookup_insert_ne by done;
    rewrite lookup_empty; simpl; by rewrite insert_empty.
Qed.

Lemma events_unchanged fuel (st : Silence float) irows prows silent ts :
  m_first st = false -> silent = m_prevSilent st ->
  events fuel st irows prows silent ts = Ok (∅, false).
Proof.
  intros Hf ->. unfold detect. rewrite Hf. simpl.
  by destruct (m_prevSilent st).
Qed.

Lemma events_changed fuel (st : Silence float) irows prows ts :
  let silent := aubio_silence_detection irows (m_threshold st) in
  m_first st = true \/ silent <> m_prevSilent st ->
  events fuel st irows prows silent ts =
    if m_first st && silent then Ok (reported float_of_Z silent ts, true)
    else off ← refined st irows prows fuel;
         Ok (reported float_of_Z silent (stamp_at st ts off), true).
Proof.
  intros silent Hch. unfold detect. fold silent.
  assert (m_first st || xorb (m_prevSilent st) silent = true) as ->.
  { destruct Hch as [->|Hne]; [done|].
    destruct (m_first st), (m_prevSilent st), silent; done. }
  destruct (m_first st), silent; simpl; rewrite ?emit_reported; try done.
  - destruct (refine _ _ _ _ _ _ _ _ _); simpl; by rewrite ?emit_reported.
  - destruct (refine _ _ _ _ _ _ _ _ _); simpl; by rewrite ?emit_reported.
  - destruct (refine _ _ _ _ _ _ _ _ _); simpl; by rewrite ?emit_reported.
Qed.

(** Claim C9.  A block after the first whose classification equals the
    recorded one produces no event: [process] returns, for any fuel, the
    empty feature set, and the recorded classification state is unchanged. *)
Theorem process_no_change_no_events fuel (st : Silence float) inputBuffers ts :
  initialised st -> block_ok st inputBuffers ->
  m_first st = false ->
  silent_of st inputBuffers = m_prevSilent st ->
  exists st',
    run fuel st inputBuffers ts = Ok (st', ∅) /\
    m_first st' = false /\ m_prevSilent st' = m_prevSilent st.
Proof.
  intros Hinit Hblock Hfirst Hsame.
  destruct (process_eq float_of_Z lrintf aubio_silence_detection rt_add
              frame2RealTime fuel st inputBuffers ts Hinit Hblock)
    as (ib & pb & prows & _ & _ & _ & _ & _ & _ & ->).
  rewrite events_unchanged by done. simpl.
  eexists. split; [done|]. simpl. by rewrite Hfirst.
Qed.

(** Claim C6.  On a first call or a detected change, [process] skips the
    refinement exactly when the call is the first one and the block is
    silent, and then stamps the events with the block's timestamp;
    otherwise its outcome is that of the refinement, and the events are
    stamped [timestamp + frame2RealTime(off, rate)] for the offset [off] the
    refinement returns. *)
Theorem process_refinement_guard fuel (st : Silence float) inputBuffers ts :
  initialised st -> block_ok st inputBuffers ->
  m_first st = true \/ silent_of st inputBuffers <> m_prevSilent st ->
  exists prows,
    previous_block st = Some prows /\
    snd <$> run fuel st inputBuffers ts =
      if m_first st && silent_of st inputBuffers
      then Ok (reported float_of_Z (silent_of st inputBuffers) ts)
      else off ← refined st (block_of st inputBuffers) prows fuel;
           Ok (reported float_of_Z (silent_of st inputBuffers)
                 (stamp_at st ts off)).
Proof.
  intros Hinit Hblock Hch.
  destruct (process_eq float_of_Z lrintf aubio_silence_detection rt_add
              frame2RealTime fuel st inputBuffers ts Hinit Hblock)
    as (ib & pb & prows & _ & Hpb & _ & Hprows & _ & _ & ->).
  exists prows. split.
  { unfold previous_block, pbuf_data. rewrite Hpb. simpl. done. }
  unfold block_silent in *. rewrite events_changed by done.
  destruct (m_first st && _); [done|].
  destruct (refine _ _ _ _ _ _ _ _ _); done.
Qed.

(** The refinement of a non-silent block is its forward search. *)
Lemma refine_nonsilent fuel (st : Silence float) block prows :
  initialised st ->
  shaped block (m_channelCount st) (m_stepSize st) ->
  8 <= m_stepSize st -> (Z.to_nat (m_stepSize st) <= fuel)%nat ->
  refine aubio_silence_detection (m_stepSize st) (m_channelCount st)
    (m_threshold st) false (m_tmpptrs st) block prows fuel =
    Ok (first_match
          (confirms aubio_silence_detection (m_threshold st) false block
             (4 * search_incr (m_stepSize st)) (m_channelCount st))
          (scan_positions (search_incr (m_stepSize st))
             (m_stepSize st - 4 * search_incr (m_stepSize st)))).
Proof.
  intros (ib & pb & irows & prows0 & _ & _ & _ & _ & _ & _ & _ & _ & _ & _ & _
          & Htmp & Hs & Hc) Hshape H8 Hfuel.
  unfold refine. rewrite Htmp.
  rewrite (forward_search_scan aubio_silence_detection _ _ _ false block)
    by (done || lia).
  done.
Qed.

(** The object [process] leaves is initialised, with the two [data]
    pointers exchanged and the block stored behind [m_pbuf->data]. *)
Lemma finish_initialised (st : Silence float) ib pb block changed silent :
  initialised st -> m_ibuf st = Some ib -> m_pbuf st = Some pb ->
  shaped block (m_channelCount st) (m_stepSize st) ->
  let st' := finish st ib pb (<[fv_data ib := block]> (heap st)) changed silent in
  initialised st' /\
  previous_block st' = Some block /\
  pbuf_data st' = ibuf_data st /\ ibuf_data st' = pbuf_data st /\
  (forall l, Some l <> ibuf_data st -> heap st' !! l = heap st !! l).
Proof.
  intros (ib0 & pb0 & irows & prows & Hib & Hpb & Hne & Hil & Hic & Hpl & Hpc
          & Hirows & Hprows & Hish & Hpsh & Htmp & Hs & Hc) Hib' Hpb' Hshape.
  rewrite Hib in Hib'. rewrite Hpb in Hpb'.
  injection Hib' as <-. injection Hpb' as <-.
  pose proof (lookup_lt_Some _ _ _ Hirows) as Hlt.
  simpl. split; [|split; [|split; [|split]]].
  - exists {| fv_length := fv_length ib0; fv_channels := fv_channels ib0;
              fv_data := fv_data pb0 |},
           {| fv_length := fv_length pb0; fv_channels := fv_channels pb0;
              fv_data := fv_data ib0 |}, prows, block. simpl.
    do 2 (split; [done|]). split; [congruence|].
    do 4 (split; [done|]).
    split; [by rewrite list_lookup_insert_ne|].
    split; [by rewrite list_lookup_insert_eq|]. done.
  - unfold previous_block, pbuf_data. simpl.
    by rewrite list_lookup_insert_eq.
  - unfold pbuf_data, ibuf_data. simpl. by rewrite Hib.
  - unfold pbuf_data, ibuf_data. simpl. by rewrite Hpb.
  - intros l Hl. unfold ibuf_data in Hl. rewrite Hib in Hl. simpl in Hl.
    rewrite list_lookup_insert_ne; [done|congruence].
Qed.

(** Claim C1, as the code has it.  Whenever [process] returns for the
    first block after construction or reset, whatever the step size, it
    has produced exactly one Level Signal sample and exactly one
    Transition Event (silence start for a silent block, silence end
    otherwise), both with the same timestamp: the block's timestamp when the
    block is silent, and the block's timestamp plus
    [frame2RealTime(off, rate)] when it is not, [off] being the result of
    the forward search over the block.  It returns for every silent first
    block; for a non-silent one it returns when the step size is at least
    8, and for a smaller step size when the step size is 0 or the probe at
    position 0 confirms the classification. *)
Theorem process_first_block fuel (st : Silence float) inputBuffers ts :
  initialised st -> block_ok st inputBuffers ->
  m_first st = true ->
  let accept := confirms aubio_silence_detection (m_threshold st) false
                  (block_of st inputBuffers)
                  (4 * search_incr (m_stepSize st)) (m_channelCount st) in
  let found := first_match accept
                 (scan_positions (search_incr (m_stepSize st))
                    (m_stepSize st - 4 * search_incr (m_stepSize st))) in
  (forall st' fs,
     run fuel st inputBuffers ts = Ok (st', fs) ->
     exists off,
       fs = reported float_of_Z (silent_of st inputBuffers)
              (if silent_of st inputBuffers then ts else stamp_at st ts off)
       /\ (silent_of st inputBuffers = false -> off = found)
       /\ m_first st' = false
       /\ m_prevSilent st' = silent_of st inputBuffers)
  /\ (silent_of st inputBuffers = true \/
        (8 <= m_stepSize st /\ (Z.to_nat (m_stepSize st) <= fuel)%nat) ->
      exists st' off,
        run fuel st inputBuffers ts =
          Ok (st', reported float_of_Z (silent_of st inputBuffers)
                     (if silent_of st inputBuffers then ts
                      else stamp_at st ts off))
        /\ (silent_of st inputBuffers = false -> off = found)
        /\ m_first st' = false
        /\ m_prevSilent st' = silent_of st inputBuffers)
  /\ (silent_of st inputBuffers = false -> m_stepSize st < 8 ->
      m_stepSize st = 0 \/ accept 0 = true ->
      exists st',
        run (S fuel) st inputBuffers ts
        = Ok (st', reported float_of_Z false (stamp_at st ts 0))
        /\ m_first st' = false /\ m_prevSilent st' = false).
Proof.
  intros Hinit Hblock Hfirst accept found.
  assert (forall n,
    exists ib pb prows,
      shaped (block_of st inputBuffers) (m_channelCount st) (m_stepSize st) /\
      run n st inputBuffers ts =
        (r ← events n st (block_of st inputBuffers) prows
               (silent_of st inputBuffers) ts;
         Ok (finish st ib pb
               (<[fv_data ib := block_of st inputBuffers]> (heap st))
               r.2 (silent_of st inputBuffers), r.1))) as Hrun.
  { intros n.
    destruct (process_eq float_of_Z lrintf aubio_silence_detection rt_add
                frame2RealTime n st inputBuffers ts Hinit Hblock)
      as (ib & pb & prows & _ & _ & _ & _ & _ & Hbsh & Heq).
    exists ib, pb, prows. done. }
  destruct Hinit as (_ & _ & _ & _ & _ & _ & _ & _ & _ & _ & _ & _ & _ & _ & _
                     & Htmp & Hs & Hc).
  assert (0 <= m_channelCount st) as Hc0 by lia.
  unfold block_silent in *.
  split; [|split].
  - intros st' fs.
    destruct (Hrun fuel) as (ib & pb & prows & Hbsh & ->).
    rewrite events_changed by (by left). rewrite Hfirst. simpl.
    destruct (aubio_silence_detection _ _) eqn:Hsil.
    + intros [= <- <-]. exists 0. done.
    + unfold refine. rewrite Htmp.
      destruct (forward_search _ _ _ _ _ _ _ _ _ _) as [off| |] eqn:Hfwd;
        simpl; try done.
      intros [= <- <-]. exists off. split; [done|]. split; [|done].
      intros _.
      by apply (forward_search_returns aubio_silence_detection _ _ _ false _
                  Hs Hc0 Hbsh fuel).
  - intros Hcase.
    destruct (Hrun fuel) as (ib & pb & prows & Hbsh & ->).
    rewrite events_changed by (by left). rewrite Hfirst. simpl.
    destruct (aubio_silence_detection _ _) eqn:Hsil.
    + eexists _, 0. simpl. split; [done|]. done.
    + destruct Hcase as [?|[H8 Hfuel]]; [done|].
      unfold refine. rewrite Htmp.
      rewrite (forward_search_scan aubio_silence_detection _ _ _ false _ Hs
                 Hc0 Hbsh) by done.
      simpl. eexists _, _. split; [done|]. done.
  - intros Hsil Hsmall Hprobe.
    destruct (Hrun (S fuel)) as (ib & pb & prows & Hbsh & ->).
    rewrite events_changed by (by left). rewrite Hfirst, Hsil.
    simpl andb. cbv iota. unfold refine. rewrite Htmp.
    assert (forward_search aubio_silence_detection (m_stepSize st)
              (m_channelCount st) (m_threshold st) false
              (Some (m_channelCount st)) (block_of st inputBuffers)
              (S fuel) 0 0 = Ok 0) as ->.
    { pose proof (search_incr_zero (m_stepSize st) ltac:(lia)) as Hz.
      destruct Hprobe as [Hzero|Hacc].
      - rewrite (forward_exit aubio_silence_detection _ _ _ _ _ Hs) by lia.
        done.
      - destruct (decide (0 < m_stepSize st)) as [Hpos|Hnpos].
        + rewrite (forward_step aubio_silence_detection _ _ _ false _ Hs Hc0
                     Hbsh) by lia.
          subst accept. by rewrite Hacc.
        + rewrite (forward_exit aubio_silence_detection _ _ _ _ _ Hs) by lia.
          done. }
    simpl. eexists. split; [done|]. done.
Qed.

(** Claim C8.  Whenever [process] returns, the Previous-Block Buffer holds
    exactly the samples of the block just processed, and it got them by the
    exchange of the two [data] pointers: the storage that was behind
    [m_ibuf] is now behind [m_pbuf] and conversely, and no other storage was
    written.  [process] does return when no change is detected, and when a
    non-silent block is the first one or follows silence (given a step size
    of at least 8 and fuel for the forward search). *)
Theorem process_retains_block fuel (st : Silence float) inputBuffers ts :
  initialised st -> block_ok st inputBuffers ->
  (forall st' fs, run fuel st inputBuffers ts = Ok (st', fs) ->
     previous_block st' = Some (block_of st inputBuffers) /\
     pbuf_data st' = ibuf_data st /\ ibuf_data st' = pbuf_data st /\
     (forall l, Some l <> ibuf_data st -> heap st' !! l = heap st !! l) /\
     initialised st')
  /\ (m_first st = false -> silent_of st inputBuffers = m_prevSilent st ->
       exists st', run fuel st inputBuffers ts = Ok (st', ∅))
  /\ (silent_of st inputBuffers = false ->
       m_first st = true \/ m_prevSilent st = true ->
       8 <= m_stepSize st -> (Z.to_nat (m_stepSize st) <= fuel)%nat ->
       exists st' fs, run fuel st inputBuffers ts = Ok (st', fs)).
Proof.
  intros Hinit Hblock.
  destruct (process_eq float_of_Z lrintf aubio_silence_detection rt_add
              frame2RealTime fuel st inputBuffers ts Hinit Hblock)
    as (ib & pb & prows & Hib & Hpb & _ & _ & _ & Hbsh & ->).
  split; [|split].
  - intros st' fs Hrun.
    destruct (events _ _ _ _ _ _) as [r| |]; simpl in Hrun; try done.
    injection Hrun as <- _.
    destruct (finish_initialised st ib pb (block_of st inputBuffers) r.2
                (silent_of st inputBuffers) Hinit Hib Hpb Hbsh)
      as (H1 & H2 & H3 & H4 & H5).
    done.
  - intros Hfirst Hsame. rewrite events_unchanged by done. simpl. eauto.
  - intros Hloud Hch H8 Hfuel. unfold block_silent in *.
    rewrite events_changed
      by (destruct Hch as [?|Hp]; [by left|right; rewrite Hloud, Hp; done]).
    rewrite Hloud, andb_false_r.
    rewrite refine_nonsilent by done. simpl. eauto.
Qed.

(** When silence begins and the first window of the block already reads
    silent, the backward search runs and its first probe reads past the end
    of the previous block. *)
Lemma process_silence_onset_overrun fuel (st : Silence float) inputBuffers ts :
  initialised st -> block_ok st inputBuffers ->
  m_first st = false -> m_prevSilent st = false ->
  silent_of st inputBuffers = true ->
  8 <= m_stepSize st -> 0 < m_channelCount st ->
  confirms aubio_silence_detection (m_threshold st) true
    (block_of st inputBuffers) (4 * search_incr (m_stepSize st))
    (m_channelCount st) 0 = true ->
  run (S fuel) st inputBuffers ts = Fault OutOfBounds.
Proof.
  intros Hinit Hblock Hfirst Hprev Hsil H8 Hc Hacc.
  destruct (process_eq float_of_Z lrintf aubio_silence_detection rt_add
              frame2RealTime (S fuel) st inputBuffers ts Hinit Hblock)
    as (ib & pb & prows & _ & _ & _ & _ & Hpsh & Hbsh & ->).
  destruct Hinit as (_ & _ & _ & _ & _ & _ & _ & _ & _ & _ & _ & _ & _ & _ & _
                     & Htmp & Hs & _).
  unfold block_silent in *.
  rewrite events_changed by (right; rewrite Hsil, Hprev; done).
  rewrite Hfirst, Hsil. simpl andb. cbv iota.
  unfold refine. rewrite Htmp.
  pose proof (search_incr_fits (m_stepSize st) ltac:(lia)) as Hfit.
  pose proof (search_incr_pos (m_stepSize st) H8) as Hincr.
  assert (0 <= m_channelCount st) as Hc0 by lia.
  rewrite (forward_step aubio_silence_detection _ _ _ true _ Hs Hc0 Hbsh)
    by lia.
  rewrite Hacc. cbn -[backward_search].
  rewrite (backward_search_overrun aubio_silence_detection _ _ _ _ Hs
             Hc0 Hpsh) by done.
  done.
Qed.

(** With a step size below 8 the search step is 0: when the refinement runs
    and the probe of the empty window at position 0 does not confirm the
    block's classification, the forward loop never leaves. *)
Lemma process_zero_step_diverges fuel (st : Silence float) inputBuffers ts :
  initialised st -> block_ok st inputBuffers ->
  0 < m_stepSize st < 8 ->
  m_first st = true \/ silent_of st inputBuffers <> m_prevSilent st ->
  m_first st && silent_of st inputBuffers = false ->
  confirms aubio_silence_detection (m_threshold st)
    (silent_of st inputBuffers) (block_of st inputBuffers)
    (4 * search_incr (m_stepSize st)) (m_channelCount st) 0 = false ->
  run fuel st inputBuffers ts = OutOfFuel.
Proof.
  intros Hinit Hblock Hsmall Hch Hgate Hrej.
  destruct (process_eq float_of_Z lrintf aubio_silence_detection rt_add
              frame2RealTime fuel st inputBuffers ts Hinit Hblock)
    as (ib & pb & prows & _ & _ & _ & _ & Hpsh & Hbsh & ->).
  destruct Hinit as (_ & _ & _ & _ & _ & _ & _ & _ & _ & _ & _ & _ & _ & _ & _
                     & Htmp & Hs & Hc).
  unfold block_silent in *.
  rewrite events_changed by done. rewrite Hgate.
  unfold refine. rewrite Htmp.
  assert (0 <= m_channelCount st) as Hc0 by lia.
  rewrite (forward_search_stuck aubio_silence_detection _ _ _ _ _ Hs
             Hc0 Hbsh) by (done || lia || (apply search_incr_zero; lia)).
  done.
Qed.

(** With a step size of at least 8, [process] returns or faults once it
    has fuel for one iteration per sample. *)
Lemma process_bounded fuel (st : Silence float) inputBuffers ts :
  initialised st -> block_ok st inputBuffers ->
  8 <= m_stepSize st -> (Z.to_nat (m_stepSize st) <= fuel)%nat ->
  run fuel st inputBuffers ts <> OutOfFuel.
Proof.
  intros Hinit Hblock H8 Hfuel.
  destruct (process_eq float_of_Z lrintf aubio_silence_detection rt_add
              frame2RealTime fuel st inputBuffers ts Hinit Hblock)
    as (ib & pb & prows & _ & _ & _ & _ & Hpsh & Hbsh & ->).
  destruct Hinit as (_ & _ & _ & _ & _ & _ & _ & _ & _ & _ & _ & _ & _ & _ & _
                     & Htmp & Hs & Hc).
  assert (0 <= m_channelCount st) as Hc0 by lia.
  unfold detect. rewrite Htmp.
  pose proof (refine_bounded aubio_silence_detection _ _ (m_threshold st)
                (silent_of st inputBuffers) _ prows Hs Hc0 Hbsh fuel H8 Hfuel)
    as Href.
  destruct (m_first st || _); [|done].
  destruct (_ || _); [|done].
  destruct (refine _ _ _ _ _ _ _ _ _); done.
Qed.

End Machine.

(** ** Configuration: [initialise], [reset] and the parameter *)

Section Configuration.

Context {float : Type}.
Variable float_of_Z : Z -> float.

(** Claim C4, as the code has it.  [initialise] allocates two fresh
    zero-filled vectors of the new sizes (the storage allocated before is
    left as it was) and records the sizes, but it leaves the Classification
    State alone: [m_first] and [m_prevSilent] (and the threshold) keep the
    values they had.  [reset] is what sets [m_first]. *)
Theorem initialise_keeps_classification (st : Silence float)
    channels stepSize blockSize :
  0 <= channels < UINT_MOD -> 0 <= stepSize < UINT_MOD ->
  let st' := (initialise float_of_Z st channels stepSize blockSize).1 in
  let zeros := replicate (Z.to_nat channels)
                 (replicate (Z.to_nat stepSize) (float_of_Z 0)) in
  initialised st'
  /\ m_channelCount st' = channels /\ m_stepSize st' = stepSize
  /\ ibuf_data st' = Some (List.length (heap st))
  /\ pbuf_data st' = Some (S (List.length (heap st)))
  /\ heap st' !! List.length (heap st) = Some zeros
  /\ previous_block st' = Some zeros
  /\ (forall l, (l < List.length (heap st))%nat -> heap st' !! l = heap st !! l)
  /\ m_first st' = m_first st
  /\ m_prevSilent st' = m_prevSilent st
  /\ m_threshold st' = m_threshold st
  /\ m_first (reset st') = true.
Proof.
  intros Hc Hs st' zeros.
  split; [by apply initialise_initialised|].
  subst st' zeros. unfold previous_block, pbuf_data, ibuf_data. simpl.
  do 3 (split; [done|]).
  split; [rewrite length_app; simpl; f_equal; lia|].
  split.
  { rewrite lookup_app_l by (rewrite length_app; simpl; lia).
    rewrite lookup_app_r by lia. by rewrite Nat.sub_diag. }
  split.
  { rewrite lookup_app_r by done. by rewrite Nat.sub_diag. }
  split; [|done].
  intros l Hl. rewrite <- app_assoc. by rewrite lookup_app_l.
Qed.

(** Claim C10.  For a parameter name other than "silencethreshold",
    [setParameter] returns the object unchanged and [getParameter] returns
    0.0.  [setParameter("silencethreshold", v)] stores [v] itself as the
    threshold, whatever float [v] is, and changes nothing else;
    [getParameter] then returns [v]. *)
Theorem parameter_access (st : Silence float) (param : string) (v : float) :
  (param <> "silencethreshold"%string ->
     setParameter st param v = st /\
     getParameter float_of_Z st param = float_of_Z 0)
  /\ m_threshold (setParameter st "silencethreshold" v) = v
  /\ getParameter float_of_Z (setParameter st "silencethreshold" v)
       "silencethreshold" = v
  /\ getParameter float_of_Z st "silencethreshold" = m_threshold st
  /\ setParameter st "silencethreshold" v =
       {| m_inputSampleRate := m_inputSampleRate st;
          m_ibuf := m_ibuf st; m_pbuf := m_pbuf st;
          m_tmpptrs := m_tmpptrs st;
          m_threshold := v;
          m_prevSilent := m_prevSilent st; m_first := m_first st;
          m_channelCount := m_channelCount st; m_stepSize := m_stepSize st;
          m_blockSize := m_blockSize st; heap := heap st |}.
Proof.
  split; [|done].
  intros Hne. unfold setParameter, getParameter.
  by rewrite bool_decide_eq_false_2.
Qed.

Lemma reset_initialised (st : Silence float) :
  initialised st -> initialised (reset st).
Proof. intros (ib & pb & irows & prows & H). by exists ib, pb, irows, prows. Qed.

Lemma setParameter_initialised (st : Silence float) param v :
  initialised st -> initialised (setParameter st param v).
Proof.
  intros (ib & pb & irows & prows & H). unfold setParameter.
  case_bool_decide; by exists ib, pb, irows, prows.
Qed.

End Configuration.

(** * The properties on the test host *)

(** [initialised] for an object given in full. *)
Ltac host_initialised :=
  eexists _, _, _, _;
  repeat (split; [first [reflexivity | discriminate
                        | (split; [reflexivity | repeat constructor])] |]);
  unfold UINT_MOD; simpl; lia.

Lemma host_init_initialised channels stepSize :
  0 <= channels < UINT_MOD -> 0 <= stepSize < UINT_MOD ->
  initialised (Host.init channels stepSize).
Proof. intros. by apply initialise_initialised. Qed.

Lemma host_loud8_initialised : initialised Host.loud8.
Proof. host_initialised. Qed.

Lemma host_loud4_initialised : initialised Host.loud4.
Proof. host_initialised. Qed.

Example host_first_loud_block_8 :
  Host.run 8 (Host.init 1 8) (Host.tone 8 1) 0
  = Ok (Host.loud8, reported id false 0).
Proof. vm_compute. reflexivity. Qed.

Example host_first_loud_block_4 :
  Host.run 8 (Host.init 1 4) (Host.tone 4 1) 0
  = Ok (Host.loud4, reported id false 0).
Proof. vm_compute. reflexivity. Qed.

(** [block_ok] for a given block. *)
Ltac host_decide :=
  unfold block_ok, window_ok; simpl; repeat split; try lia;
  repeat (constructor; try (simpl; lia)).

(** ** The first block (claim C1) *)

(** Claim C1 fails.  A first block that is all zeros is silent; [process]
    returns the Level Signal sample on output 2 and, with it, a "silence
    start" Transition Event on output 0.  A first block that begins with
    16 samples of silence and is non-silent as a whole has its events
    stamped 4 frames after the block's timestamp 100. *)
Lemma first_block_reports_transition :
  m_first (Host.init 1 8) = true /\
  (exists st',
     Host.run 0 (Host.init 1 8) (Host.tone 8 0) 0
     = Ok (st', {[ 2 := [level_sample id 0 true]; 0 := [instant 0] ]})) /\
  m_first (Host.init 1 32) = true /\
  (exists st',
     Host.run 32 (Host.init 1 32) (Host.onset 16 16) 100
     = Ok (st', {[ 2 := [level_sample id 104 false]; 1 := [instant 104] ]})).
Proof.
  split; [reflexivity|]. split; [eexists; vm_compute; reflexivity|].
  split; [reflexivity|]. eexists; vm_compute; reflexivity.
Qed.

Lemma process_first_block_witness :
  initialised (Host.init 1 32) /\
  block_ok (Host.init 1 32) (Host.onset 16 16) /\
  m_first (Host.init 1 32) = true /\
  (8 <= m_stepSize (Host.init 1 32) /\
   (Z.to_nat (m_stepSize (Host.init 1 32)) <= 32)%nat) /\
  exists st' off,
    Host.run 32 (Host.init 1 32) (Host.onset 16 16) 100
    = Ok (st', reported id false (100 + off)) /\
    off = 4 /\ m_first st' = false /\ m_prevSilent st' = false.
Proof.
  assert (initialised (Host.init 1 32)) as H1
    by (apply host_init_initialised; unfold UINT_MOD; lia).
  assert (block_ok (Host.init 1 32) (Host.onset 16 16)) as H2 by host_decide.
  assert (8 <= m_stepSize (Host.init 1 32) /\
          (Z.to_nat (m_stepSize (Host.init 1 32)) <= 32)%nat) as H4
    by (simpl; lia).
  do 4 (split; [done|]).
  destruct (process_first_block id id Host.level_below Z.add Host.frames 32
              (Host.init 1 32) (Host.onset 16 16) 100 H1 H2 eq_refl)
    as (_ & Hret & _).
  destruct (Hret (or_intror H4)) as (st' & off & Hrun & Hoff & Hfirst & Hprev).
  exists st', off. split; [exact Hrun|].
  split; [exact (Hoff eq_refl)|]. split; [exact Hfirst|exact Hprev].
Defined.

(** ** The degenerate step size (claim C2) *)

(** Claim C2 fails.  With a step size of 4 the search step is 0.  After a
    first, loud block, a block of silence starts the refinement; the probe
    of the empty window at position 0 is not silent, the loop counter stays
    at 0, and [process] does not return whatever the fuel. *)
Theorem zero_step_search_never_returns :
  search_incr 4 = 0 /\
  Host.run 8 (Host.init 1 4) (Host.tone 4 1) 0
    = Ok (Host.loud4, reported id false 0) /\
  forall fuel, Host.run fuel Host.loud4 (Host.tone 4 0) 4 = OutOfFuel.
Proof.
  split; [reflexivity|]. split; [vm_compute; reflexivity|].
  intros fuel. apply process_zero_step_diverges.
  - host_initialised.
  - host_decide.
  - simpl. lia.
  - right. vm_compute. discriminate.
  - reflexivity.
  - vm_compute. reflexivity.
Qed.

(** ** The backward search (claim C3) *)

(** Claim C3 fails.  With a step size of 8 the search step is 1 and the
    probe window 4 samples.  After a first, loud block, a block of silence
    is confirmed by the forward search at position 0; the backward search
    then probes the 4 samples from position [8 - 0 - 1 = 7] of the
    8-sample previous block, three of which lie past its end.  The window
    of 4 samples that ends at the end of the previous block starts at
    position 4. *)
Theorem backward_probe_overruns_previous_block :
  search_incr 8 = 1 /\ vec_length 8 = 4 /\
  Host.run 8 (Host.init 1 8) (Host.tone 8 1) 0
    = Ok (Host.loud8, reported id false 0) /\
  previous_block Host.loud8 = Some (Host.tone 8 1) /\
  fvec_read (Host.tone 8 1) (8 - 0 - search_incr 8) (vec_length 8) 1
    = Fault OutOfBounds /\
  fvec_read (Host.tone 8 1) (8 - 0 - vec_length 8) (vec_length 8) 1
    = Ok (Host.tone 4 1) /\
  forall fuel, Host.run (S fuel) Host.loud8 (Host.tone 8 0) 8
               = Fault OutOfBounds.
Proof.
  do 2 (split; [reflexivity|]). split; [vm_compute; reflexivity|].
  do 3 (split; [reflexivity|]).
  intros fuel. apply process_silence_onset_overrun.
  - host_initialised.
  - host_decide.
  - reflexivity.
  - reflexivity.
  - reflexivity.
  - simpl. lia.
  - simpl. lia.
  - vm_compute. reflexivity.
Qed.

(** ** The forward search with a zero step (claim C5) *)

(** Claim C5 fails.  With a step size of 4 the search step is 0 and the
    one scan position is 0.  For a silent block of four zeros the probe
    of the empty window at position 0 does not confirm the classification,
    so no position is found and the offset to leave is 0; the forward
    search of the code stays at position 0 and does not return whatever
    the fuel. *)
Theorem forward_search_zero_step_never_returns :
  search_incr 4 = 0 /\
  scan_positions (search_incr 4) (4 - 4 * search_incr 4) = [0] /\
  Host.level_below (Host.tone 4 0) (-70) = true /\
  confirms Host.level_below (-70) true (Host.tone 4 0) (4 * search_incr 4) 1 0
    = false /\
  first_match
    (confirms Host.level_below (-70) true (Host.tone 4 0)
       (4 * search_incr 4) 1)
    (scan_positions (search_incr 4) (4 - 4 * search_incr 4)) = 0 /\
  forall fuel,
    forward_search Host.level_below 4 1 (-70) true (Some 1) (Host.tone 4 0)
      fuel 0 0 = OutOfFuel.
Proof.
  do 5 (split; [reflexivity|]).
  intros fuel. apply forward_search_stuck.
  - unfold UINT_MOD. lia.
  - lia.
  - split; [reflexivity|repeat constructor].
  - reflexivity.
  - lia.
  - reflexivity.
Qed.

(** ** Re-initialisation (claim C4) *)

(** Claim C4 fails.  After a first, loud block the object is initialised
    again: [m_first] is still false, and a further loud block produces no
    event, where a first block produces a Level Signal sample (as the same
    block does after [reset]). *)
Lemma reinitialise_keeps_first_flag :
  m_first Host.loud8 = false /\
  m_first (initialise id Host.loud8 1 8 8).1 = false /\
  (exists st',
     Host.run 8 (initialise id Host.loud8 1 8 8).1 (Host.tone 8 1) 8
     = Ok (st', ∅)) /\
  (exists st',
     Host.run 8 (reset Host.loud8) (Host.tone 8 1) 8
     = Ok (st', reported id false 8)).
Proof.
  do 2 (split; [reflexivity|]).
  split; eexists; vm_compute; reflexivity.
Qed.

Lemma initialise_keeps_classification_witness :
  0 <= 2 < UINT_MOD /\ 0 <= 16 < UINT_MOD /\
  initialised (initialise id Host.loud8 2 16 16).1 /\
  previous_block (initialise id Host.loud8 2 16 16).1
    = Some [replicate 16 0; replicate 16 0] /\
  m_first (initialise id Host.loud8 2 16 16).1 = m_first Host.loud8 /\
  m_prevSilent (initialise id Host.loud8 2 16 16).1 = m_prevSilent Host.loud8.
Proof.
  assert (0 <= 2 < UINT_MOD) as H1 by (unfold UINT_MOD; lia).
  assert (0 <= 16 < UINT_MOD) as H2 by (unfold UINT_MOD; lia).
  do 2 (split; [done|]).
  destruct (initialise_keeps_classification id Host.loud8 2 16 16 H1 H2)
    as (Hi & _ & _ & _ & _ & _ & Hp & _ & Hf & Hs & _).
  split; [exact Hi|]. split; [exact Hp|]. split; [exact Hf|exact Hs].
Defined.

(** ** The forward search on a block with an onset *)

Lemma forward_search_first_match_witness :
  0 <= 32 < UINT_MOD /\ 0 <= 1 /\ shaped (Host.onset 16 16) 1 32 /\
  8 <= 32 /\ (Z.to_nat 32 <= 32)%nat /\
  scan_positions (search_incr 32) (32 - 4 * search_incr 32) = [0; 4; 8; 12] /\
  forward_search Host.level_below 32 1 (-70) false (Some 1)
    (Host.onset 16 16) 32 0 0 = Ok 4.
Proof.
  assert (0 <= 32 < UINT_MOD) as H1 by (unfold UINT_MOD; lia).
  assert (0 <= 1) as H2 by lia.
  assert (shaped (Host.onset 16 16) 1 32) as H3
    by (split; [reflexivity|repeat constructor]).
  assert (8 <= 32) as H4 by lia.
  assert (Z.to_nat 32 <= 32)%nat as H5 by (simpl; lia).
  do 5 (split; [done|]). split; [reflexivity|].
  destruct (forward_search_first_match Host.level_below 32 1 (-70) false
              (Host.onset 16 16) H1 H2 H3 32) as (_ & Hret & _).
  exact (Hret H4 H5).
Defined.

(** ** The refinement guard (claim C6) *)

Lemma process_refinement_guard_witness :
  initialised (reset Host.loud8) /\
  block_ok (reset Host.loud8) (Host.onset 4 4) /\
  (m_first (reset Host.loud8) = true \/
   block_silent Host.level_below (reset Host.loud8) (Host.onset 4 4)
   <> m_prevSilent (reset Host.loud8)) /\
  exists prows,
    previous_block (reset Host.loud8) = Some prows /\
    snd <$> Host.run 8 (reset Host.loud8) (Host.onset 4 4) 8
    = (off ← refine Host.level_below 8 1 (-70) false (Some 1)
               (Host.onset 4 4) prows 8;
       Ok (reported id false (8 + off))).
Proof.
  assert (initialised (reset Host.loud8)) as H1 by host_initialised.
  assert (block_ok (reset Host.loud8) (Host.onset 4 4)) as H2 by host_decide.
  assert (m_first (reset Host.loud8) = true \/
          block_silent Host.level_below (reset Host.loud8) (Host.onset 4 4)
          <> m_prevSilent (reset Host.loud8)) as H3 by (left; reflexivity).
  do 3 (split; [done|]).
  exact (process_refinement_guard id id Host.level_below Z.add Host.frames 8
           (reset Host.loud8) (Host.onset 4 4) 8 H1 H2 H3).
Defined.

(** ** The probe window (claim C7) *)

Lemma probe_window_length_witness :
  0 <= 32 < SIZE_MOD /\
  (forall vec, shaped vec 1 (4 * Z.min 16 (32 / 8)) ->
     Host.level_below vec (-70) = Host.only16 vec (-70)) /\
  search_incr 32 = 4 /\ vec_length 32 = 16 /\
  refine Host.level_below 32 1 (-70) false (Some 1)
    (Host.onset 16 16) (Host.tone 32 0) 32
  = refine Host.only16 32 1 (-70) false (Some 1)
      (Host.onset 16 16) (Host.tone 32 0) 32.
Proof.
  assert (0 <= 32 < SIZE_MOD) as H1 by (unfold SIZE_MOD; lia).
  assert (forall vec, shaped vec 1 (4 * Z.min 16 (32 / 8)) ->
            Host.level_below vec (-70) = Host.only16 vec (-70)) as H2.
  { intros vec [Hl Hf]. unfold Host.only16.
    simpl in Hl. destruct vec as [|row [|row' vec]]; try discriminate Hl.
    inversion Hf as [|? ? Hrow _]; subst. simpl in Hrow.
    simpl. rewrite Hrow. reflexivity. }
  do 2 (split; [done|]).
  destruct (probe_window_length Host.level_below Host.only16 32 1 (-70)
              (Some 1) H2 false (Host.onset 16 16) (Host.tone 32 0) 32 H1)
    as (Hi & Hv & _ & _ & Hr).
  split; [exact Hi|]. split; [exact Hv|exact Hr].
Defined.

(** ** The Previous-Block Buffer (claim C8) *)

Lemma process_retains_block_witness :
  initialised Host.loud8 /\ block_ok Host.loud8 (Host.onset 4 4) /\
  (exists st', Host.run 0 Host.loud8 (Host.onset 4 4) 8 = Ok (st', ∅)) /\
  forall st' fs,
    Host.run 0 Host.loud8 (Host.onset 4 4) 8 = Ok (st', fs) ->
    previous_block st' = Some (Host.onset 4 4) /\
    pbuf_data st' = ibuf_data Host.loud8 /\
    ibuf_data st' = pbuf_data Host.loud8.
Proof.
  assert (initialised Host.loud8) as H1 by host_initialised.
  assert (block_ok Host.loud8 (Host.onset 4 4)) as H2 by host_decide.
  do 2 (split; [done|]).
  destruct (process_retains_block id id Host.level_below Z.add Host.frames 0
              Host.loud8 (Host.onset 4 4) 8 H1 H2) as (Hret & Hsame & _).
  split; [exact (Hsame eq_refl eq_refl)|].
  intros st' fs Hrun.
  destruct (Hret st' fs Hrun) as (Hp & Hpi & Hip & _).
  split; [exact Hp|]. split; [exact Hpi|exact Hip].
Defined.

(** ** No change, no events (claim C9) *)

Lemma process_no_change_no_events_witness :
  initialised Host.loud8 /\ block_ok Host.loud8 (Host.tone 8 1) /\
  m_first Host.loud8 = false /\
  block_silent Host.level_below Host.loud8 (Host.tone 8 1)
  = m_prevSilent Host.loud8 /\
  exists st',
    Host.run 0 Host.loud8 (Host.tone 8 1) 8 = Ok (st', ∅) /\
    m_first st' = false /\ m_prevSilent st' = m_prevSilent Host.loud8.
Proof.
  assert (initialised Host.loud8) as H1 by host_initialised.
  assert (block_ok Host.loud8 (Host.tone 8 1)) as H2 by host_decide.
  do 2 (split; [done|]). do 2 (split; [reflexivity|]).
  exact (process_no_change_no_events id id Host.level_below Z.add Host.frames
           0 Host.loud8 (Host.tone 8 1) 8 H1 H2 eq_refl eq_refl).
Defined.

(** ** The parameter (claim C10) *)

Lemma parameter_access_witness :
  "gain"%string <> "silencethreshold"%string /\
  setParameter Host.loud8 "gain" 5 = Host.loud8 /\
  getParameter id Host.loud8 "gain" = 0 /\
  m_threshold (setParameter Host.loud8 "silencethreshold" 40) = 40.
Proof.
  assert ("gain"%string <> "silencethreshold"%string) as H1 by discriminate.
  split; [done|].
  destruct (parameter_access id Host.loud8 "gain" 5) as (Hother & _).
  destruct (parameter_access id Host.loud8 "gain" 40) as (_ & Hset & _).
  destruct (Hother H1) as [Hs Hg].
  split; [exact Hs|]. split; [exact Hg|exact Hset].
Defined.

(** * Further properties of the plugin *)

(** ** The offset the refinement returns *)

Section Offsets.

Context {float : Type}.
Variable aubio_silence_detection : list (list float) -> float -> bool.
Variables (s ch : Z) (thr : float) (silent : bool).
Variables (irows prows : list (list float)).

Hypothesis Hs : 0 <= s < UINT_MOD.
Hypothesis Hch : 0 <= ch.
Hypothesis Hirows : shaped irows ch s.

Local Abbreviation incr := (search_incr s).
Local Abbreviation accept :=
  (confirms aubio_silence_detection thr silent irows (4 * incr) ch).

Lemma first_match_cases (accept0 : Z -> bool) positions :
  first_match accept0 positions = 0 \/
  (first_match accept0 positions ∈ positions /\
   accept0 (first_match accept0 positions) = true).
Proof.
  unfold first_match. destruct (List.find accept0 positions) as [i|] eqn:Hfind.
  - right. apply List.find_some in Hfind as [Hin Hacc]. simpl.
    by rewrite list_elem_of_In.
  - by left.
Qed.

Lemma forward_offset_range fuel off :
  forward_search aubio_silence_detection s ch thr silent (Some ch) irows
    fuel 0 0 = Ok off ->
  (off = 0 \/ 0 < off < s - 4 * incr) /\ (incr | off).
Proof.
  intros Hret.
  pose proof (search_incr_range s ltac:(lia)) as Hincr.
  apply (forward_search_returns aubio_silence_detection s ch thr silent irows
           Hs Hch Hirows) in Hret.
  destruct (first_match_cases accept (scan_positions incr (s - 4 * incr)))
    as [Hz|[Hin _]].
  - rewrite Hz in Hret. subst off. split; [by left|]. apply Z.divide_0_r.
  - rewrite <- Hret in Hin.
    apply scan_positions_spec in Hin as [Hr Hd]; [|lia].
    split; [lia|done].
Qed.

Lemma backward_offset_range fuel : forall i off0 off,
  0 <= i -> (incr | i) ->
  backward_search aubio_silence_detection s ch thr (Some ch) prows
    fuel i off0 = Ok off ->
  off = off0 \/ (exists i', off = - i' /\ i <= i' < s - incr /\ (incr | i')).
Proof.
  pose proof uint_lt_size as Hu.
  pose proof (search_incr_range s ltac:(lia)) as Hincr.
  induction fuel as [|fuel IH]; intros i off0 off Hi Hdiv; [done|].
  simpl. rewrite (backward_bound s Hs).
  case_decide as Hlt; [|intros [= <-]; by left].
  rewrite tmpptrs_store_ok by done. simpl.
  unfold fvec_read. case_decide; [simpl|done].
  destruct (negb _).
  - intros [= <-]. right. exists i. split; [|done].
    unfold long_neg. rewrite (long_of_small i) by lia.
    rewrite long_of_small; lia.
  - rewrite size_add_small by (unfold SIZE_MOD; lia).
    intros Hret. apply IH in Hret; [|lia|by apply Z.divide_add_r].
    destruct Hret as [->|(i' & -> & Hr & Hd)]; [by left|].
    right. exists i'. split; [done|]. split; [lia|done].
Qed.

(** The offset of a refinement that returns is a multiple of the search
    step strictly less than one block away from the block's start: it is
    0, or a forward position below [stepSize - 4*incr], or (for a silent
    block only) the negation of a backward position below
    [stepSize - incr]. *)
Theorem refine_offset_range fuel off :
  refine aubio_silence_detection s ch thr silent (Some ch) irows prows fuel
    = Ok off ->
  (off = 0 \/ 0 < off < s - 4 * incr \/
   (silent = true /\ - (s - incr) < off < 0))
  /\ (incr | off)
  /\ (off = 0 \/ - s < off < s).
Proof.
  intros Hret.
  pose proof (search_incr_range s ltac:(lia)) as Hincr.
  unfold refine in Hret.
  destruct (forward_search _ _ _ _ _ _ _ _ _ _) as [o| |] eqn:Hfwd;
    simpl in Hret; try done.
  apply forward_offset_range in Hfwd as [Hfr Hfd].
  destruct (silent && bool_decide (o = 0)) eqn:Hgate.
  - apply andb_true_iff in Hgate as [-> Ho%bool_decide_eq_true]. subst o.
    apply backward_offset_range in Hret; [|lia|apply Z.divide_0_r].
    destruct Hret as [->|(i' & -> & Hr & Hd)].
    + split; [by left|]. split; [apply Z.divide_0_r|by left].
    + split; [|split; [by apply Z.divide_opp_r|]]; lia.
  - injection Hret as <-. split; [lia|]. split; [done|lia].
Qed.

End Offsets.

(** The scan positions are in increasing order: no position before the
    first match is accepted. *)
Lemma find_multiples_minimal (accept : Z -> bool) (step : Z) n :
  0 < step -> forall start i,
  List.find accept ((fun k => Z.of_nat k * step) <$> seq start n) = Some i ->
  forall k, (start <= k < start + n)%nat -> Z.of_nat k * step < i ->
  accept (Z.of_nat k * step) = false.
Proof.
  intros Hstep. induction n as [|n IH]; intros start i; simpl; [done|].
  destruct (accept (Z.of_nat start * step)) eqn:Hacc.
  - intros [= <-] k Hk Hlt. nia.
  - intros Hfind k Hk Hlt.
    destruct (decide (k = start)) as [->|Hne]; [done|].
    apply (IH (S start) i Hfind); [lia|done].
Qed.

Lemma first_match_minimal (accept : Z -> bool) (step bound : Z) :
  0 < step -> forall j,
  j ∈ scan_positions step bound ->
  j < first_match accept (scan_positions step bound) ->
  accept j = false.
Proof.
  intros Hstep j Hin Hlt. unfold scan_positions in *.
  rewrite decide_False in * by lia.
  apply list_elem_of_fmap in Hin as (k & -> & Hk%elem_of_seq).
  unfold first_match in Hlt.
  destruct (List.find accept _) as [i|] eqn:Hfind; simpl in Hlt.
  - by apply (find_multiples_minimal accept step _ Hstep 0%nat i Hfind).
  - apply List.find_none with (x := Z.of_nat k * step) in Hfind; [done|].
    apply list_elem_of_In, list_elem_of_fmap. exists k.
    split; [done|]. by apply elem_of_seq.
Qed.

(** ** One call and the next *)

Section Stream.

Context {float RealTime : Type}.
Variables (float_of_Z : Z -> float) (lrintf : float -> Z).
Variable aubio_silence_detection : list (list float) -> float -> bool.
Variables (rt_add : RealTime -> RealTime -> RealTime)
          (frame2RealTime : Z -> Z -> RealTime).
Variable d0 : OutputDescriptor float.

Local Abbreviation run :=
  (process float_of_Z lrintf aubio_silence_detection rt_add frame2RealTime).
Local Abbreviation events :=
  (detect float_of_Z lrintf aubio_silence_detection rt_add frame2RealTime).
Local Abbreviation silent_of := (block_silent aubio_silence_detection).
Local Abbreviation stamp_at st ts off :=
  (rt_add ts (frame2RealTime off (uint_of (lrintf (m_inputSampleRate st))))).

(** The features of lines 199-268 are none, or one level sample and one
    instant. *)
Lemma events_shape fuel (st : Silence float) irows prows silent ts r :
  events fuel st irows prows silent ts = Ok r ->
  (r = (∅, false) /\ m_first st = false /\ silent = m_prevSilent st) \/
  (exists stamp, r = (reported float_of_Z silent stamp, true) /\
     (m_first st = true \/ silent <> m_prevSilent st)).
Proof.
  unfold detect.
  destruct (m_first st || xorb (m_prevSilent st) silent) eqn:Hbranch.
  - intros Hret. right.
    assert (m_first st = true \/ silent <> m_prevSilent st) as Hwhy
      by (destruct (m_first st), (m_prevSilent st), silent; auto).
    destruct (_ || negb silent).
    + destruct (refine _ _ _ _ _ _ _ _ _) as [off| |]; simpl in Hret;
        try done.
      injection Hret as <-. rewrite emit_reported. eauto.
    + simpl in Hret. injection Hret as <-. rewrite emit_reported. eauto.
  - intros [= <-]. left.
    destruct (m_first st), (m_prevSilent st), silent; done.
Qed.

(** What a call that returns leaves behind. *)
Lemma process_step fuel (st : Silence float) inputBuffers ts st' fs :
  initialised st -> block_ok st inputBuffers ->
  run fuel st inputBuffers ts = Ok (st', fs) ->
  initialised st'
  /\ m_first st' = false
  /\ m_prevSilent st' = silent_of st inputBuffers
  /\ m_threshold st' = m_threshold st
  /\ m_stepSize st' = m_stepSize st
  /\ m_channelCount st' = m_channelCount st
  /\ m_blockSize st' = m_blockSize st
  /\ m_inputSampleRate st' = m_inputSampleRate st
  /\ List.length (heap st') = List.length (heap st)
  /\ pbuf_data st' = ibuf_data st /\ ibuf_data st' = pbuf_data st
  /\ previous_block st' = Some (block_of st inputBuffers)
  /\ (forall l, Some l <> ibuf_data st -> heap st' !! l = heap st !! l)
  /\ ((fs = ∅ /\ m_first st = false /\
       silent_of st inputBuffers = m_prevSilent st) \/
      (exists stamp,
         fs = reported float_of_Z (silent_of st inputBuffers) stamp /\
         (m_first st = true \/ silent_of st inputBuffers <> m_prevSilent st))).
Proof.
  intros Hinit Hblock.
  destruct (process_eq float_of_Z lrintf aubio_silence_detection rt_add
              frame2RealTime fuel st inputBuffers ts Hinit Hblock)
    as (ib & pb & prows & Hib & Hpb & _ & _ & _ & Hbsh & ->).
  destruct (events _ _ _ _ _ _) as [r| |] eqn:Hev; simpl; try done.
  intros [= <- <-].
  destruct (finish_initialised st ib pb (block_of st inputBuffers) r.2
              (silent_of st inputBuffers) Hinit Hib Hpb Hbsh)
    as (H1 & H2 & H3 & H4 & H5).
  apply events_shape in Hev.
  split; [done|]. simpl.
  split; [destruct Hev as [(-> & ? & ?)|(? & -> & ?)]; done|].
  split; [destruct Hev as [(-> & ? & ?)|(? & -> & ?)]; done|].
  do 5 (split; [done|]).
  split; [by rewrite length_insert|].
  do 4 (split; [done|]).
  destruct Hev as [(-> & ? & ?)|(stamp & -> & ?)]; [by left|right; eauto].
Qed.

(** After any call that returns, the recorded classification is that of
    the block just processed and the first-block flag is cleared; the
    threshold, the sizes and the sample rate are as before, the object is
    still initialised, and no storage was allocated. *)
Theorem process_records_classification fuel (st : Silence float)
    inputBuffers ts st' fs :
  initialised st -> block_ok st inputBuffers ->
  run fuel st inputBuffers ts = Ok (st', fs) ->
  initialised st'
  /\ m_first st' = false
  /\ m_prevSilent st' = silent_of st inputBuffers
  /\ m_threshold st' = m_threshold st
  /\ m_stepSize st' = m_stepSize st
  /\ m_channelCount st' = m_channelCount st
  /\ m_blockSize st' = m_blockSize st
  /\ m_inputSampleRate st' = m_inputSampleRate st
  /\ List.length (heap st') = List.length (heap st).
Proof.
  intros Hinit Hblock Hrun.
  destruct (process_step fuel st inputBuffers ts st' fs Hinit Hblock Hrun)
    as (H1 & H2 & H3 & H4 & H5 & H6 & H7 & H8 & H9 & _).
  done.
Qed.

Lemma reported_lookup_kind (silent : bool) (stamp : RealTime) :
  reported float_of_Z silent stamp !! (if silent then 0 else 1)
    = Some [instant stamp] /\
  reported float_of_Z silent stamp !! (if silent then 1 else 0) = None /\
  reported float_of_Z silent stamp !! 2
    = Some [level_sample float_of_Z stamp silent].
Proof. unfold reported. by destruct silent. Qed.

(** Of two consecutive calls that return, the second produces events
    exactly when its block classifies differently from the first one's,
    and then they announce the opposite state: a silence start (output 0)
    is never followed by another silence start, nor a silence end
    (output 1) by another silence end. *)
Theorem transitions_alternate fuel1 fuel2 (st : Silence float)
    in1 ts1 st1 fs1 in2 ts2 st2 fs2 :
  initialised st -> block_ok st in1 -> block_ok st in2 ->
  run fuel1 st in1 ts1 = Ok (st1, fs1) ->
  run fuel2 st1 in2 ts2 = Ok (st2, fs2) ->
  (silent_of st in2 = silent_of st in1 -> fs2 = ∅)
  /\ (silent_of st in2 <> silent_of st in1 ->
      exists stamp, fs2 = reported float_of_Z (negb (silent_of st in1)) stamp)
  /\ (forall k, k = 0 \/ k = 1 ->
        is_Some (fs1 !! k) -> fs2 !! k = None).
Proof.
  intros Hinit Hb1 Hb2 Hrun1 Hrun2.
  destruct (process_step fuel1 st in1 ts1 st1 fs1 Hinit Hb1 Hrun1)
    as (Hinit1 & Hf1 & Hp1 & Ht1 & Hs1 & Hc1 & _ & _ & _ & _ & _ & _ & _ & Hfs1).
  assert (block_ok st1 in2) as Hb2'
    by (unfold block_ok in *; by rewrite Hs1, Hc1).
  assert (silent_of st1 in2 = silent_of st in2) as Hsil
    by (unfold block_silent, block_of; by rewrite Hs1, Hc1, Ht1).
  destruct (process_step fuel2 st1 in2 ts2 st2 fs2 Hinit1 Hb2' Hrun2)
    as (_ & _ & _ & _ & _ & _ & _ & _ & _ & _ & _ & _ & _ & Hfs2).
  rewrite Hsil, Hf1, Hp1 in Hfs2.
  assert (fs2 = ∅ /\ silent_of st in2 = silent_of st in1 \/
          (exists stamp, fs2 = reported float_of_Z (silent_of st in2) stamp) /\
          silent_of st in2 = negb (silent_of st in1)) as Hcases.
  { destruct Hfs2 as [(-> & _ & ?)|(stamp & -> & [?|Hne])]; [by left|done|].
    right. split; [eauto|].
    destruct (silent_of st in2), (silent_of st in1); done. }
  split; [|split].
  - intros Hsame. destruct Hcases as [[-> _]|[_ Hflip]]; [done|].
    rewrite Hsame in Hflip. by destruct (silent_of st in1).
  - intros Hdiff. destruct Hcases as [[_ ?]|[[stamp Hfs] Hflip]]; [done|].
    rewrite <- Hflip. eauto.
  - intros k Hk Hsome.
    destruct Hcases as [[-> _]|[[stamp ->] Hflip]]; [apply lookup_empty|].
    destruct Hfs1 as [(-> & _)|(stamp1 & -> & _)].
    { rewrite lookup_empty in Hsome. by destruct Hsome. }
    rewrite Hflip.
    destruct (silent_of st in1); destruct Hk as [-> | ->]; try done;
      by destruct Hsome.
Qed.

(** The Previous-Block Buffer is a ring of two: no call allocates, each
    call that returns exchanges the two storages, so after two calls each
    vector has the storage it had before the first; the Previous-Block
    Buffer then holds the second block and the storage behind [m_ibuf]
    still holds the first. *)
Theorem storage_alternates fuel1 fuel2 (st : Silence float)
    in1 ts1 st1 fs1 in2 ts2 st2 fs2 :
  initialised st -> block_ok st in1 -> block_ok st in2 ->
  run fuel1 st in1 ts1 = Ok (st1, fs1) ->
  run fuel2 st1 in2 ts2 = Ok (st2, fs2) ->
  ibuf_data st2 = ibuf_data st /\ pbuf_data st2 = pbuf_data st
  /\ ibuf_data st <> pbuf_data st
  /\ List.length (heap st2) = List.length (heap st)
  /\ previous_block st2 = Some (block_of st in2)
  /\ (l ← ibuf_data st2; heap st2 !! l) = Some (block_of st in1).
Proof.
  intros Hinit Hb1 Hb2 Hrun1 Hrun2.
  destruct (process_step fuel1 st in1 ts1 st1 fs1 Hinit Hb1 Hrun1)
    as (Hinit1 & _ & _ & _ & Hs1 & Hc1 & _ & _ & Hl1 & Hpi1 & Hip1 & Hprev1
        & _ & _).
  assert (block_ok st1 in2) as Hb2'
    by (unfold block_ok in *; by rewrite Hs1, Hc1).
  destruct (process_step fuel2 st1 in2 ts2 st2 fs2 Hinit1 Hb2' Hrun2)
    as (_ & _ & _ & _ & _ & _ & _ & _ & Hl2 & Hpi2 & Hip2 & Hprev2 & Hkeep2
        & _).
  destruct Hinit as (ib & pb & irows & prows & Hib & Hpb & Hne & _).
  assert (ibuf_data st = Some (fv_data ib)) as Hi
    by (unfold ibuf_data; by rewrite Hib).
  assert (pbuf_data st = Some (fv_data pb)) as Hp
    by (unfold pbuf_data; by rewrite Hpb).
  split; [congruence|]. split; [congruence|].
  split; [rewrite Hi, Hp; congruence|].
  split; [congruence|].
  split; [unfold block_of in *; by rewrite <- Hs1, <- Hc1|].
  rewrite Hip2, Hpi1, Hi. simpl.
  rewrite Hkeep2 by (rewrite Hip1, Hp; congruence).
  unfold previous_block in Hprev1. rewrite Hpi1, Hi in Hprev1. done.
Qed.

(** [process] reads the first [m_stepSize] samples of the first
    [m_channelCount] channels only: two blocks that agree on those give
    the same outcome, whatever else the caller's arrays hold. *)
Theorem process_reads_step_samples fuel (st : Silence float) in1 in2 ts :
  initialised st -> block_ok st in1 -> block_ok st in2 ->
  block_of st in1 = block_of st in2 ->
  run fuel st in1 ts = run fuel st in2 ts.
Proof.
  intros Hinit Hb1 Hb2 Heq.
  destruct (process_eq float_of_Z lrintf aubio_silence_detection rt_add
              frame2RealTime fuel st in1 ts Hinit Hb1)
    as (ib & pb & prows & Hib & Hpb & _ & Hprows & _ & _ & ->).
  destruct (process_eq float_of_Z lrintf aubio_silence_detection rt_add
              frame2RealTime fuel st in2 ts Hinit Hb2)
    as (ib' & pb' & prows' & Hib' & Hpb' & _ & Hprows' & _ & _ & ->).
  assert (ib' = ib) as -> by congruence.
  assert (pb' = pb) as -> by congruence.
  assert (prows' = prows) as -> by congruence.
  unfold block_silent. by rewrite Heq.
Qed.

Lemma process_features_shape fuel (st : Silence float) inputBuffers ts st' fs :
  run fuel st inputBuffers ts = Ok (st', fs) ->
  fs = ∅ \/ exists silent stamp, fs = reported float_of_Z silent stamp.
Proof.
  unfold process.
  destruct (m_ibuf st) as [ib|]; simpl; [|done].
  destruct (m_pbuf st) as [pb|]; simpl; [|done].
  destruct (copy_block _ _ _ _ _) as [h| |]; simpl; try done.
  destruct (fvec_read _ _ _ _) as [whole| |]; simpl; try done.
  destruct (events _ _ _ _ _ _) as [r| |] eqn:Hev; simpl; try done.
  intros [= _ <-]. apply events_shape in Hev.
  destruct Hev as [(-> & _)|(stamp & -> & _)]; [by left|right; eauto].
Qed.

(** Every feature [process] returns is on one of the three outputs that
    [getOutputDescriptors] declares and is as that output's descriptor
    announces: it carries a timestamp (the outputs have a variable sample
    rate) and has as many values as the output has bins, none on outputs
    0 and 1, one on output 2; that one value is the declared minimum (0)
    or maximum (1) of output 2. *)
Theorem features_conform_to_outputs fuel (st : Silence float)
    inputBuffers ts st' fs :
  run fuel st inputBuffers ts = Ok (st', fs) ->
  forall k feats, fs !! k = Some feats ->
    0 <= k /\
    exists d,
      getOutputDescriptors float_of_Z d0 !! Z.to_nat k = Some d /\
      Forall (conforms d) feats /\
      (k = 2 ->
       Forall (fun f => values f = [od_minValue d] \/
                        values f = [od_maxValue d]) feats).
Proof.
  intros Hrun k feats Hk.
  apply process_features_shape in Hrun as [->|(silent & stamp & ->)].
  { by rewrite lookup_empty in Hk. }
  unfold reported in Hk.
  apply lookup_insert_Some in Hk as [[<- <-]|[Hne Hk]].
  - split; [lia|]. eexists. split; [reflexivity|].
    split; [by repeat constructor|]. intros _.
    apply Forall_cons. split; [|constructor].
    simpl. destruct silent; [by left|by right].
  - apply lookup_singleton_Some in Hk as [<- <-].
    destruct silent; (split; [lia|]); eexists;
      (split; [reflexivity|]); (split; [by repeat constructor|]); done.
Qed.

(** [reset] makes the next block a first block, whatever classification
    was recorded: the call produces a level sample and an instant, and
    for a silent block it returns for any fuel with both stamped with the
    block's timestamp.  The buffers and the threshold are kept. *)
Theorem reset_then_process fuel (st : Silence float) inputBuffers ts :
  initialised st -> block_ok st inputBuffers ->
  initialised (reset st)
  /\ previous_block (reset st) = previous_block st
  /\ m_threshold (reset st) = m_threshold st
  /\ (forall st' fs, run fuel (reset st) inputBuffers ts = Ok (st', fs) ->
        exists stamp,
          fs = reported float_of_Z (silent_of st inputBuffers) stamp)
  /\ (silent_of st inputBuffers = true ->
      exists st',
        run fuel (reset st) inputBuffers ts
        = Ok (st', reported float_of_Z true ts) /\
        m_first st' = false /\ m_prevSilent st' = true).
Proof.
  intros Hinit Hblock.
  assert (initialised (reset st)) as Hinit'.
  { destruct Hinit as (ib & pb & irows & prows & H).
    by exists ib, pb, irows, prows. }
  do 3 (split; [done|]).
  split.
  - intros st' fs Hrun.
    destruct (process_step fuel (reset st) inputBuffers ts st' fs Hinit'
                Hblock Hrun)
      as (_ & _ & _ & _ & _ & _ & _ & _ & _ & _ & _ & _ & _ & Hfs).
    destruct Hfs as [(_ & Hf & _)|(stamp & -> & _)]; [done|eauto].
  - intros Hsil.
    destruct (process_eq float_of_Z lrintf aubio_silence_detection rt_add
                frame2RealTime fuel (reset st) inputBuffers ts Hinit' Hblock)
      as (ib & pb & prows & _ & _ & _ & _ & _ & _ & ->).
    unfold block_silent, block_of in *.
    rewrite events_changed by (by left).
    cbn [reset m_first m_threshold m_stepSize m_channelCount].
    rewrite Hsil. simpl.
    eexists. split; [done|]. done.
Qed.

(** A silence end after the first block (a non-silent block following
    silence), with a step size of at least 8: [process] returns one level
    sample of value 1 and one instant on output 1, stamped
    [timestamp + frame2RealTime(off)], where [off] is the first scan
    position whose window is non-silent, or 0 if there is none; [off] lies
    in [[0, stepSize - 4*incr)]. *)
Theorem process_silence_end fuel (st : Silence float) inputBuffers ts :
  initialised st -> block_ok st inputBuffers ->
  m_first st = false -> m_prevSilent st = true ->
  silent_of st inputBuffers = false ->
  8 <= m_stepSize st -> (Z.to_nat (m_stepSize st) <= fuel)%nat ->
  let incr := search_incr (m_stepSize st) in
  let accept := confirms aubio_silence_detection (m_threshold st) false
                  (block_of st inputBuffers) (4 * incr) (m_channelCount st) in
  let off := first_match accept
               (scan_positions incr (m_stepSize st - 4 * incr)) in
  (exists st',
     run fuel st inputBuffers ts
     = Ok (st', reported float_of_Z false (stamp_at st ts off)) /\
     m_prevSilent st' = false)
  /\ 0 <= off < m_stepSize st - 4 * incr
  /\ (incr | off)
  /\ (off <> 0 -> accept off = true /\
      forall i, 0 <= i < off -> (incr | i) -> accept i = false).
Proof.
  intros Hinit Hblock Hfirst Hprev Hloud H8 Hfuel incr accept off.
  destruct (process_eq float_of_Z lrintf aubio_silence_detection rt_add
              frame2RealTime fuel st inputBuffers ts Hinit Hblock)
    as (ib & pb & prows & _ & _ & _ & _ & _ & Hbsh & ->).
  pose proof (search_incr_pos _ H8) as Hincr.
  pose proof (search_incr_fits (m_stepSize st) ltac:(lia)) as Hfit.
  unfold block_silent in *.
  rewrite events_changed by (right; rewrite Hloud, Hprev; done).
  rewrite Hfirst, Hloud. simpl andb. cbv iota.
  rewrite refine_nonsilent by done. simpl.
  split; [eauto|].
  fold incr. fold accept. fold off.
  assert (0 <= off < m_stepSize st - 4 * incr /\ (incr | off)) as [Hr Hd].
  { destruct (first_match_cases accept
                (scan_positions incr (m_stepSize st - 4 * incr)))
      as [Hz|[Hin _]]; fold off in Hz || fold off in Hin.
    - rewrite Hz. split; [subst incr; lia|apply Z.divide_0_r].
    - apply scan_positions_spec in Hin; [done|subst incr; lia]. }
  do 2 (split; [done|]).
  intros Hnz.
  split.
  - destruct (first_match_cases accept
                (scan_positions incr (m_stepSize st - 4 * incr)))
      as [Hz|[_ Hacc]]; [by fold off in Hz|done].
  - intros i Hi Hdi. apply (first_match_minimal accept incr
                              (m_stepSize st - 4 * incr));
      [subst incr; lia| |fold off; lia].
    apply scan_positions_spec; [subst incr; lia|]. split; [lia|done].
Qed.

(** A silence start after the first block (a silent block following
    non-silence), with a step size of at least 8 and at least one channel.
    When the forward search finds its first confirming window at a
    position other than 0, [process] returns the events stamped that many
    frames after the block's timestamp.  When it finds it at position 0,
    or nowhere, the backward search runs and [process] faults on its first
    probe. *)
Theorem process_silence_start fuel (st : Silence float) inputBuffers ts :
  initialised st -> block_ok st inputBuffers ->
  m_first st = false -> m_prevSilent st = false ->
  silent_of st inputBuffers = true ->
  8 <= m_stepSize st -> (Z.to_nat (m_stepSize st) <= fuel)%nat ->
  0 < m_channelCount st ->
  let incr := search_incr (m_stepSize st) in
  let accept := confirms aubio_silence_detection (m_threshold st) true
                  (block_of st inputBuffers) (4 * incr) (m_channelCount st) in
  let off := first_match accept
               (scan_positions incr (m_stepSize st - 4 * incr)) in
  (off <> 0 ->
     exists st',
       run fuel st inputBuffers ts
       = Ok (st', reported float_of_Z true (stamp_at st ts off)) /\
       m_prevSilent st' = true)
  /\ (off = 0 -> run fuel st inputBuffers ts = Fault OutOfBounds).
Proof.
  intros Hinit Hblock Hfirst Hprev Hsil H8 Hfuel Hc incr accept off.
  destruct (process_eq float_of_Z lrintf aubio_silence_detection rt_add
              frame2RealTime fuel st inputBuffers ts Hinit Hblock)
    as (ib & pb & prows & _ & _ & _ & _ & Hpsh & Hbsh & ->).
  destruct Hinit as (_ & _ & _ & _ & _ & _ & _ & _ & _ & _ & _ & _ & _ & _ & _
                     & Htmp & Hs & _).
  assert (0 <= m_channelCount st) as Hc0 by lia.
  unfold block_silent in *.
  rewrite events_changed by (right; rewrite Hsil, Hprev; done).
  rewrite Hfirst, Hsil. simpl andb. cbv iota.
  unfold refine. rewrite Htmp.
  rewrite (forward_search_scan aubio_silence_detection _ _ _ true _ Hs Hc0
             Hbsh) by done.
  fold incr. fold accept. fold off. cbn -[backward_search].
  split.
  - intros Hnz. rewrite bool_decide_eq_false_2 by done. simpl. eauto.
  - intros Hz. rewrite bool_decide_eq_true_2 by done. rewrite Hz.
    destruct fuel as [|fuel]; [lia|].
    rewrite (backward_search_overrun aubio_silence_detection _ _ _ _ Hs Hc0
               Hpsh) by done.
    done.
Qed.

(** With a step size of at least 8, [process] comes to an end: given fuel
    for one iteration per sample of the block it returns or faults.  The
    preferred step size is such a step size. *)
Theorem process_terminates fuel (st : Silence float) inputBuffers ts :
  initialised st -> block_ok st inputBuffers ->
  8 <= m_stepSize st \/ m_stepSize st = getPreferredStepSize ->
  (Z.to_nat (m_stepSize st) <= fuel)%nat ->
  (exists st' fs, run fuel st inputBuffers ts = Ok (st', fs)) \/
  (exists f, run fuel st inputBuffers ts = Fault f).
Proof.
  intros Hinit Hblock Hstep Hfuel.
  assert (8 <= m_stepSize st) as H8
    by (destruct Hstep as [? | ->]; [done|unfold getPreferredStepSize; lia]).
  pose proof (process_bounded float_of_Z lrintf aubio_silence_detection
                rt_add frame2RealTime fuel st inputBuffers ts Hinit Hblock
                H8 Hfuel) as Hb.
  destruct (run fuel st inputBuffers ts) as [[st' fs]|f|]; [left|right|done];
    eauto.
Qed.

(** With a step size of 0 the caller's arrays are not read at all, both
    searches leave at once with offset 0, and [process] returns for any
    input and any non-zero fuel. *)
Theorem process_empty_step fuel (st : Silence float) inputBuffers ts :
  initialised st -> m_stepSize st = 0 ->
  exists st' fs,
    run (S fuel) st inputBuffers ts = Ok (st', fs) /\
    (fs = ∅ \/
     (exists silent, fs = reported float_of_Z silent ts) \/
     (exists silent, fs = reported float_of_Z silent (stamp_at st ts 0))).
Proof.
  intros (ib & pb & irows & prows & Hib & Hpb & Hne & Hil & Hic & Hpl & Hpc
          & Hirows & Hprows & Hish & Hpsh & Htmp & Hs & Hc) Hzero.
  unfold process. rewrite Hib, Hpb. simpl.
  rewrite Hzero. unfold copy_block. simpl. unfold rows_of.
  rewrite Hirows, Hprows. simpl. rewrite Hil, Hic, Hzero.
  rewrite Hzero in Hish, Hs.
  rewrite (fvec_read_ok _ _ _ _ _ Hish) by lia. simpl.
  unfold detect. rewrite Hzero, Htmp.
  destruct (m_first st || _); simpl; [|eauto 10].
  destruct ((_ && negb (m_first st)) || _); simpl;
    [|rewrite emit_reported; eauto 10].
  unfold refine.
  rewrite (forward_exit aubio_silence_detection 0 _ _ _ _ Hs)
    by (rewrite search_incr_zero; lia).
  cbn -[backward_search].
  assert (backward_search aubio_silence_detection 0 (m_channelCount st)
            (m_threshold st) (Some (m_channelCount st)) prows (S fuel) 0 0
          = Ok 0) as Hbwd.
  { cbn [backward_search]. rewrite (backward_bound 0 Hs).
    rewrite decide_False; [done|rewrite search_incr_zero; lia]. }
  destruct (_ && _); [rewrite Hbwd|]; simpl; rewrite emit_reported;
    eauto 10.
Qed.

(** Before [initialise] the vectors are null pointers: [process] faults on
    a freshly constructed object, also after [reset] and [setParameter]. *)
Theorem process_before_initialise fuel rate c0 s0 b0 param v inputBuffers ts :
  run fuel (setParameter (reset (Silence_new float_of_Z rate c0 s0 b0)) param v)
    inputBuffers ts = Fault NullPointer
  /\ run fuel (Silence_new float_of_Z rate c0 s0 b0) inputBuffers ts
     = Fault NullPointer.
Proof.
  split; [|done]. unfold setParameter. by case_bool_decide.
Qed.

End Stream.

(** ** The caller's block *)

Section Input.

Context {float RealTime : Type}.
Variables (float_of_Z : Z -> float) (lrintf : float -> Z).
Variable aubio_silence_detection : list (list float) -> float -> bool.
Variables (rt_add : RealTime -> RealTime -> RealTime)
          (frame2RealTime : Z -> Z -> RealTime).

Local Abbreviation run :=
  (process float_of_Z lrintf aubio_silence_detection rt_add frame2RealTime).

(** A counted loop that returns has run its body at every index. *)
Lemma for_each_ok {S : Type} idx (body : nat -> S -> outcome S) s s' :
  for_each idx body s = Ok s' ->
  forall i, i ∈ idx -> exists s1 s2, body i s1 = Ok s2.
Proof.
  revert s. induction idx as [|j idx IH]; intros s Hret i Hi.
  - by apply elem_of_nil in Hi.
  - simpl in Hret. destruct (body j s) as [s1| |] eqn:Hbody; try done.
    apply elem_of_cons in Hi as [->|Hi]; [eauto|].
    by apply (IH s1 Hret).
Qed.

(** A counted loop whose body can only fault out of bounds can only fault
    out of bounds. *)
Lemma for_each_faults {S : Type} idx (body : nat -> S -> outcome S) s :
  (forall i s, (exists s', body i s = Ok s') \/ body i s = Fault OutOfBounds) ->
  (exists s', for_each idx body s = Ok s') \/
  for_each idx body s = Fault OutOfBounds.
Proof.
  intros Hbody. revert s. induction idx as [|j idx IH]; intros s; simpl.
  - left. eauto.
  - destruct (Hbody j s) as [[s1 ->]| ->]; [apply IH|by right].
Qed.

Lemma copy_block_faults inputBuffers s ch ib (h : list (list (list float))) :
  (exists h', copy_block inputBuffers s ch ib h = Ok h') \/
  copy_block inputBuffers s ch ib h = Fault OutOfBounds.
Proof.
  unfold copy_block. apply for_each_faults. intros i h1.
  apply for_each_faults. intros j h2.
  unfold input_sample, fvec_write_sample.
  destruct (inputBuffers !! j) as [chan|]; [|by right].
  destruct (chan !! i); simpl; [|by right].
  destruct (h2 !! fv_data ib) as [rows|]; [|by right].
  destruct (rows !! j); [|by right].
  case_decide; [left; eauto|by right].
Qed.

Lemma copy_block_reads inputBuffers s ch ib (h h' : list (list (list float))) :
  copy_block inputBuffers s ch ib h = Ok h' ->
  forall j i, (j < Z.to_nat ch)%nat -> (i < Z.to_nat s)%nat ->
    exists x, input_sample inputBuffers j i = Ok x.
Proof.
  intros Hret j i Hj Hi. unfold copy_block in Hret.
  destruct (for_each_ok _ _ _ _ Hret i) as (h1 & h2 & Hinner);
    [apply elem_of_seq; lia|].
  destruct (for_each_ok _ _ _ _ Hinner j) as (h3 & h4 & Hbody);
    [apply elem_of_seq; lia|].
  destruct (input_sample inputBuffers j i) as [x| |]; [eauto|done|done].
Qed.

(** With a non-zero step size the caller must supply at least
    [m_channelCount] channels of at least [m_stepSize] samples: on a
    shorter block the copy loop reads outside the caller's arrays, and
    [process] faults whatever the samples are. *)
Theorem process_needs_block fuel (st : Silence float) inputBuffers ts :
  initialised st -> 0 < m_stepSize st ->
  ~ block_ok st inputBuffers ->
  run fuel st inputBuffers ts = Fault OutOfBounds.
Proof.
  intros (ib & pb & irows & prows & Hib & Hpb & _ & _ & _ & _ & _ & _ & _ & _
          & _ & _ & Hs & Hc) Hpos Hshort.
  unfold process. rewrite Hib, Hpb. simpl.
  destruct (copy_block_faults inputBuffers (m_stepSize st) (m_channelCount st)
              ib (heap st)) as [[h Hcopy]| ->]; [|done].
  exfalso. apply Hshort. unfold block_ok, window_ok.
  pose proof (copy_block_reads _ _ _ _ _ _ Hcopy) as Hread.
  assert (forall j, (j < Z.to_nat (m_channelCount st))%nat ->
            exists chan, inputBuffers !! j = Some chan /\
              m_stepSize st <= Z.of_nat (List.length chan)) as Hchan.
  { intros j Hj.
    destruct (Hread j (Z.to_nat (m_stepSize st) - 1)%nat Hj ltac:(lia))
      as [x Hx].
    unfold input_sample in Hx.
    destruct (inputBuffers !! j) as [chan|]; [|done].
    exists chan. split; [done|].
    destruct (chan !! _) eqn:Hlook; [|done].
    apply lookup_lt_Some in Hlook. lia. }
  split.
  { destruct (decide (Z.to_nat (m_channelCount st) = 0%nat)) as [->|Hnz];
      [lia|].
    destruct (Hchan (Z.to_nat (m_channelCount st) - 1)%nat ltac:(lia))
      as (chan & Hlook & _).
    apply lookup_lt_Some in Hlook. lia. }
  do 2 (split; [lia|]).
  apply Forall_lookup. intros j chan Hlook.
  apply lookup_take_Some in Hlook as [Hlook Hj].
  destruct (Hchan j Hj) as (chan' & Hlook' & Hlen).
  rewrite Hlook in Hlook'. injection Hlook' as <-. lia.
Qed.

End Input.

(** ** From construction to the first block *)

Section Construction.

Context {float : Type}.
Variable float_of_Z : Z -> float.

(** The members the constructor leaves indeterminate are assigned by
    [initialise] before anything reads them: the object [initialise]
    returns does not depend on them.  It is initialised, awaits its first
    block, has zero-filled buffers, and its threshold is the default that
    [getParameterDescriptors] declares. *)
Theorem initialise_after_construction rate c0 s0 b0 c1 s1 b1
    channels stepSize blockSize :
  0 <= channels < UINT_MOD -> 0 <= stepSize < UINT_MOD ->
  let st := (initialise float_of_Z (Silence_new float_of_Z rate c0 s0 b0)
               channels stepSize blockSize).1 in
  st = (initialise float_of_Z (Silence_new float_of_Z rate c1 s1 b1)
          channels stepSize blockSize).1
  /\ initialised st
  /\ m_first st = true
  /\ previous_block st
     = Some (replicate (Z.to_nat channels)
               (replicate (Z.to_nat stepSize) (float_of_Z 0)))
  /\ Forall (fun d => getParameter float_of_Z st (pd_identifier d)
                      = pd_defaultValue d)
       (getParameterDescriptors float_of_Z).
Proof.
  intros Hc Hs st. split; [done|].
  split; [by apply initialise_initialised|].
  split; [done|]. split; [done|]. by repeat constructor.
Qed.

(** The names [setParameter] honours are exactly the identifiers that
    [getParameterDescriptors] declares: a declared name stores the value
    and reads it back, the last value written winning; any other name
    leaves the object as it is.  [setParameter] commutes with [reset]. *)
Theorem parameters_are_declared (st : Silence float) (param : string)
    (v w : float) :
  (param ∈ (pd_identifier <$> getParameterDescriptors float_of_Z) ->
     getParameter float_of_Z (setParameter st param v) param = v /\
     setParameter (setParameter st param v) param w = setParameter st param w)
  /\ (param ∉ (pd_identifier <$> getParameterDescriptors float_of_Z) ->
      setParameter st param v = st)
  /\ reset (setParameter st param v) = setParameter (reset st) param v.
Proof.
  split; [|split].
  - intros Hin. simpl in Hin. apply list_elem_of_singleton in Hin as ->.
    done.
  - intros Hout. unfold setParameter.
    rewrite bool_decide_eq_false_2; [done|].
    intros ->. apply Hout. simpl. by apply list_elem_of_singleton.
  - unfold setParameter. by case_bool_decide.
Qed.

End Construction.

(** ** The further properties on the test host *)

Lemma refine_offset_range_witness :
  0 <= 32 < UINT_MOD /\ 0 <= 1 /\ shaped (Host.onset 16 16) 1 32 /\
  refine Host.level_below 32 1 (-70) false (Some 1) (Host.onset 16 16)
    (Host.tone 32 0) 32 = Ok 4 /\
  (4 | 4) /\ (4 = 0 \/ - 32 < 4 < 32).
Proof.
  assert (0 <= 32 < UINT_MOD) as H1 by (unfold UINT_MOD; lia).
  assert (0 <= 1) as H2 by lia.
  assert (shaped (Host.onset 16 16) 1 32) as H3
    by (split; [reflexivity|repeat constructor]).
  assert (refine Host.level_below 32 1 (-70) false (Some 1) (Host.onset 16 16)
            (Host.tone 32 0) 32 = Ok 4) as H4 by (vm_compute; reflexivity).
  do 4 (split; [done|]).
  destruct (refine_offset_range Host.level_below 32 1 (-70) false
              (Host.onset 16 16) (Host.tone 32 0) H1 H2 H3 32 4 H4)
    as (_ & Hd & Hr).
  split; [exact Hd|exact Hr].
Defined.

Lemma process_records_classification_witness :
  initialised Host.loud8 /\ block_ok Host.loud8 (Host.onset 4 4) /\
  Host.run 0 Host.loud8 (Host.onset 4 4) 8 = Ok (HostOutputs.loud8b, ∅) /\
  initialised HostOutputs.loud8b /\
  m_first HostOutputs.loud8b = false /\
  m_prevSilent HostOutputs.loud8b = false /\
  List.length (heap HostOutputs.loud8b) = List.length (heap Host.loud8).
Proof.
  assert (initialised Host.loud8) as H1 by host_initialised.
  assert (block_ok Host.loud8 (Host.onset 4 4)) as H2 by host_decide.
  assert (Host.run 0 Host.loud8 (Host.onset 4 4) 8
          = Ok (HostOutputs.loud8b, ∅)) as H3 by (vm_compute; reflexivity).
  do 3 (split; [done|]).
  destruct (process_records_classification id id Host.level_below Z.add
              Host.frames 0 Host.loud8 (Host.onset 4 4) 8 HostOutputs.loud8b ∅
              H1 H2 H3) as (Hi & Hf & Hp & _ & _ & _ & _ & _ & Hl).
  split; [exact Hi|]. split; [exact Hf|]. split; [exact Hp|exact Hl].
Defined.

Lemma transitions_alternate_witness :
  initialised (Host.init 1 8) /\
  block_ok (Host.init 1 8) (Host.tone 8 0) /\
  block_ok (Host.init 1 8) (Host.tone 8 1) /\
  Host.run 0 (Host.init 1 8) (Host.tone 8 0) 0
    = Ok (HostOutputs.quiet8, reported id true 0) /\
  Host.run 8 HostOutputs.quiet8 (Host.tone 8 1) 8
    = Ok (HostOutputs.ended8, reported id false 8) /\
  (is_Some (reported (RealTime := Z) id true 0 !! 0) ->
   reported (RealTime := Z) id false 8 !! 0 = None).
Proof.
  assert (initialised (Host.init 1 8)) as H1
    by (apply host_init_initialised; unfold UINT_MOD; lia).
  assert (block_ok (Host.init 1 8) (Host.tone 8 0)) as H2 by host_decide.
  assert (block_ok (Host.init 1 8) (Host.tone 8 1)) as H3 by host_decide.
  assert (Host.run 0 (Host.init 1 8) (Host.tone 8 0) 0
          = Ok (HostOutputs.quiet8, reported id true 0)) as H4
    by (vm_compute; reflexivity).
  assert (Host.run 8 HostOutputs.quiet8 (Host.tone 8 1) 8
          = Ok (HostOutputs.ended8, reported id false 8)) as H5
    by (vm_compute; reflexivity).
  do 5 (split; [done|]).
  destruct (transitions_alternate id id Host.level_below Z.add Host.frames
              0 8 (Host.init 1 8) (Host.tone 8 0) 0 HostOutputs.quiet8
              (reported id true 0) (Host.tone 8 1) 8 HostOutputs.ended8
              (reported id false 8) H1 H2 H3 H4 H5) as (_ & _ & Halt).
  exact (Halt 0 (or_introl eq_refl)).
Defined.

Lemma storage_alternates_witness :
  initialised (Host.init 1 8) /\
  block_ok (Host.init 1 8) (Host.tone 8 0) /\
  block_ok (Host.init 1 8) (Host.tone 8 1) /\
  Host.run 0 (Host.init 1 8) (Host.tone 8 0) 0
    = Ok (HostOutputs.quiet8, reported id true 0) /\
  Host.run 8 HostOutputs.quiet8 (Host.tone 8 1) 8
    = Ok (HostOutputs.ended8, reported id false 8) /\
  ibuf_data HostOutputs.ended8 = ibuf_data (Host.init 1 8) /\
  pbuf_data HostOutputs.ended8 = pbuf_data (Host.init 1 8) /\
  previous_block HostOutputs.ended8 = Some (Host.tone 8 1).
Proof.
  assert (initialised (Host.init 1 8)) as H1
    by (apply host_init_initialised; unfold UINT_MOD; lia).
  assert (block_ok (Host.init 1 8) (Host.tone 8 0)) as H2 by host_decide.
  assert (block_ok (Host.init 1 8) (Host.tone 8 1)) as H3 by host_decide.
  assert (Host.run 0 (Host.init 1 8) (Host.tone 8 0) 0
          = Ok (HostOutputs.quiet8, reported id true 0)) as H4
    by (vm_compute; reflexivity).
  assert (Host.run 8 HostOutputs.quiet8 (Host.tone 8 1) 8
          = Ok (HostOutputs.ended8, reported id false 8)) as H5
    by (vm_compute; reflexivity).
  do 5 (split; [done|]).
  destruct (storage_alternates id id Host.level_below Z.add Host.frames
              0 8 (Host.init 1 8) (Host.tone 8 0) 0 HostOutputs.quiet8
              (reported id true 0) (Host.tone 8 1) 8 HostOutputs.ended8
              (reported id false 8) H1 H2 H3 H4 H5)
    as (Hi & Hp & _ & _ & Hprev & _).
  split; [exact Hi|]. split; [exact Hp|exact Hprev].
Defined.

Lemma process_reads_step_samples_witness :
  initialised Host.loud8 /\
  block_ok Host.loud8 (Host.tone 8 1) /\
  block_ok Host.loud8 HostOutputs.padded /\
  block_of Host.loud8 (Host.tone 8 1) = block_of Host.loud8 HostOutputs.padded /\
  Host.run 8 Host.loud8 (Host.tone 8 1) 8
  = Host.run 8 Host.loud8 HostOutputs.padded 8.
Proof.
  assert (initialised Host.loud8) as H1 by host_initialised.
  assert (block_ok Host.loud8 (Host.tone 8 1)) as H2 by host_decide.
  assert (block_ok Host.loud8 HostOutputs.padded) as H3 by host_decide.
  assert (block_of Host.loud8 (Host.tone 8 1)
          = block_of Host.loud8 HostOutputs.padded) as H4 by reflexivity.
  do 4 (split; [done|]).
  exact (process_reads_step_samples id id Host.level_below Z.add Host.frames
           8 Host.loud8 (Host.tone 8 1) HostOutputs.padded 8 H1 H2 H3 H4).
Defined.

Lemma features_conform_to_outputs_witness :
  Host.run 8 (Host.init 1 8) (Host.tone 8 1) 0
    = Ok (Host.loud8, reported id false 0) /\
  reported (RealTime := Z) id false 0 !! 2 = Some [level_sample id 0 false] /\
  exists d,
    getOutputDescriptors id HostOutputs.blank !! 2%nat = Some d /\
    Forall (conforms d) [level_sample (RealTime := Z) id 0 false].
Proof.
  assert (Host.run 8 (Host.init 1 8) (Host.tone 8 1) 0
          = Ok (Host.loud8, reported id false 0)) as H1
    by (vm_compute; reflexivity).
  assert (reported (RealTime := Z) id false 0 !! 2
          = Some [level_sample id 0 false]) as H2 by reflexivity.
  do 2 (split; [done|]).
  destruct (features_conform_to_outputs id id Host.level_below Z.add
              Host.frames HostOutputs.blank 8 (Host.init 1 8) (Host.tone 8 1)
              0 Host.loud8 (reported id false 0) H1 2 _ H2)
    as (_ & d & Hd & Hconf & _).
  exists d. split; [exact Hd|exact Hconf].
Defined.

Lemma reset_then_process_witness :
  initialised Host.loud8 /\ block_ok Host.loud8 (Host.tone 8 0) /\
  block_silent Host.level_below Host.loud8 (Host.tone 8 0) = true /\
  exists st',
    Host.run 0 (reset Host.loud8) (Host.tone 8 0) 8
    = Ok (st', reported id true 8) /\
    m_first st' = false /\ m_prevSilent st' = true.
Proof.
  assert (initialised Host.loud8) as H1 by host_initialised.
  assert (block_ok Host.loud8 (Host.tone 8 0)) as H2 by host_decide.
  assert (block_silent Host.level_below Host.loud8 (Host.tone 8 0) = true)
    as H3 by reflexivity.
  do 3 (split; [done|]).
  destruct (reset_then_process id id Host.level_below Z.add Host.frames 0
              Host.loud8 (Host.tone 8 0) 8 H1 H2) as (_ & _ & _ & _ & Hsil).
  exact (Hsil H3).
Defined.

Lemma process_silence_end_witness :
  initialised HostOutputs.quiet8 /\
  block_ok HostOutputs.quiet8 (Host.onset 4 4) /\
  m_first HostOutputs.quiet8 = false /\
  m_prevSilent HostOutputs.quiet8 = true /\
  block_silent Host.level_below HostOutputs.quiet8 (Host.onset 4 4) = false /\
  8 <= m_stepSize HostOutputs.quiet8 /\
  (Z.to_nat (m_stepSize HostOutputs.quiet8) <= 8)%nat /\
  exists st',
    Host.run 8 HostOutputs.quiet8 (Host.onset 4 4) 8
    = Ok (st', reported id false (8 + 1)) /\
    m_prevSilent st' = false.
Proof.
  assert (initialised HostOutputs.quiet8) as H1 by host_initialised.
  assert (block_ok HostOutputs.quiet8 (Host.onset 4 4)) as H2 by host_decide.
  assert (8 <= m_stepSize HostOutputs.quiet8) as H6 by (simpl; lia).
  assert (Z.to_nat (m_stepSize HostOutputs.quiet8) <= 8)%nat as H7
    by (simpl; lia).
  do 2 (split; [done|]). do 3 (split; [reflexivity|]).
  do 2 (split; [done|]).
  destruct (process_silence_end id id Host.level_below Z.add Host.frames 8
              HostOutputs.quiet8 (Host.onset 4 4) 8 H1 H2 eq_refl eq_refl
              eq_refl H6 H7) as (Hrun & _).
  exact Hrun.
Defined.

Lemma process_silence_start_witness :
  initialised HostOutputs.loud8_0dB /\
  block_ok HostOutputs.loud8_0dB HostOutputs.fade /\
  m_first HostOutputs.loud8_0dB = false /\
  m_prevSilent HostOutputs.loud8_0dB = false /\
  block_silent Host.level_below HostOutputs.loud8_0dB HostOutputs.fade = true /\
  8 <= m_stepSize HostOutputs.loud8_0dB /\
  (Z.to_nat (m_stepSize HostOutputs.loud8_0dB) <= 8)%nat /\
  0 < m_channelCount HostOutputs.loud8_0dB /\
  exists st',
    Host.run 8 HostOutputs.loud8_0dB HostOutputs.fade 8
    = Ok (st', reported id true (8 + 1)) /\
    m_prevSilent st' = true.
Proof.
  assert (initialised HostOutputs.loud8_0dB) as H1 by host_initialised.
  assert (block_ok HostOutputs.loud8_0dB HostOutputs.fade) as H2
    by host_decide.
  assert (8 <= m_stepSize HostOutputs.loud8_0dB) as H6 by (simpl; lia).
  assert (Z.to_nat (m_stepSize HostOutputs.loud8_0dB) <= 8)%nat as H7
    by (simpl; lia).
  assert (0 < m_channelCount HostOutputs.loud8_0dB) as H8 by (simpl; lia).
  do 2 (split; [done|]). do 3 (split; [reflexivity|]).
  do 3 (split; [done|]).
  destruct (process_silence_start id id Host.level_below Z.add Host.frames 8
              HostOutputs.loud8_0dB HostOutputs.fade 8 H1 H2 eq_refl eq_refl
              eq_refl H6 H7 H8) as (Hrun & _).
  apply Hrun. vm_compute. discriminate.
Defined.

Lemma process_terminates_witness :
  initialised Host.loud8 /\ block_ok Host.loud8 (Host.tone 8 0) /\
  (8 <= m_stepSize Host.loud8 \/ m_stepSize Host.loud8 = getPreferredStepSize)
  /\ (Z.to_nat (m_stepSize Host.loud8) <= 8)%nat /\
  ((exists st' fs, Host.run 8 Host.loud8 (Host.tone 8 0) 8 = Ok (st', fs)) \/
   (exists f, Host.run 8 Host.loud8 (Host.tone 8 0) 8 = Fault f)).
Proof.
  assert (initialised Host.loud8) as H1 by host_initialised.
  assert (block_ok Host.loud8 (Host.tone 8 0)) as H2 by host_decide.
  assert (8 <= m_stepSize Host.loud8 \/
          m_stepSize Host.loud8 = getPreferredStepSize) as H3
    by (left; simpl; lia).
  assert (Z.to_nat (m_stepSize Host.loud8) <= 8)%nat as H4 by (simpl; lia).
  do 4 (split; [done|]).
  exact (process_terminates id id Host.level_below Z.add Host.frames 8
           Host.loud8 (Host.tone 8 0) 8 H1 H2 H3 H4).
Defined.

Lemma process_empty_step_witness :
  initialised (Host.init 1 0) /\ m_stepSize (Host.init 1 0) = 0 /\
  exists st' fs, Host.run 1 (Host.init 1 0) [] 8 = Ok (st', fs).
Proof.
  assert (initialised (Host.init 1 0)) as H1
    by (apply host_init_initialised; unfold UINT_MOD; lia).
  do 2 (split; [done|]).
  destruct (process_empty_step id id Host.level_below Z.add Host.frames 0
              (Host.init 1 0) [] 8 H1 eq_refl) as (st' & fs & Hrun & _).
  exists st', fs. exact Hrun.
Defined.

Lemma process_needs_block_witness :
  initialised Host.loud8 /\ 0 < m_stepSize Host.loud8 /\
  ~ block_ok Host.loud8 (Host.tone 4 1) /\
  Host.run 8 Host.loud8 (Host.tone 4 1) 8 = Fault OutOfBounds.
Proof.
  assert (initialised Host.loud8) as H1 by host_initialised.
  assert (0 < m_stepSize Host.loud8) as H2 by (simpl; lia).
  assert (~ block_ok Host.loud8 (Host.tone 4 1)) as H3.
  { intros (_ & _ & _ & Hall). inversion Hall as [|? ? Hlen _]; subst.
    simpl in Hlen. lia. }
  do 3 (split; [done|]).
  exact (process_needs_block id id Host.level_below Z.add Host.frames 8
           Host.loud8 (Host.tone 4 1) 8 H1 H2 H3).
Defined.

Lemma initialise_after_construction_witness :
  0 <= 2 < UINT_MOD /\ 0 <= 16 < UINT_MOD /\
  (initialise id (Silence_new id 44100 7 7 7) 2 16 16).1
  = (initialise id (Silence_new id 44100 0 0 0) 2 16 16).1 /\
  initialised (initialise id (Silence_new id 44100 7 7 7) 2 16 16).1.
Proof.
  assert (0 <= 2 < UINT_MOD) as H1 by (unfold UINT_MOD; lia).
  assert (0 <= 16 < UINT_MOD) as H2 by (unfold UINT_MOD; lia).
  do 2 (split; [done|]).
  destruct (initialise_after_construction id 44100 7 7 7 0 0 0 2 16 16 H1 H2)
    as (Heq & Hinit & _).
  split; [exact Heq|exact Hinit].
Defined.

Lemma parameters_are_declared_witness :
  "silencethreshold"%string
    ∈ (pd_identifier <$> getParameterDescriptors (float := Z) id) /\
  ("gain"%string
     ∉ (pd_identifier <$> getParameterDescriptors (float := Z) id)) /\
  getParameter id (setParameter Host.loud8 "silencethreshold" 3)
    "silencethreshold" = 3 /\
  setParameter Host.loud8 "gain" 3 = Host.loud8.
Proof.
  assert ("silencethreshold"%string
            ∈ (pd_identifier <$> getParameterDescriptors (float := Z) id)) as H1
    by (simpl; apply list_elem_of_singleton; reflexivity).
  assert ("gain"%string
            ∉ (pd_identifier <$> getParameterDescriptors (float := Z) id)) as H2
    by (simpl; intros Hin; apply list_elem_of_singleton in Hin;
        discriminate Hin).
  do 2 (split; [done|]).
  destruct (parameters_are_declared id Host.loud8 "silencethreshold" 3 4)
    as (Hdecl & _).
  destruct (parameters_are_declared id Host.loud8 "gain" 3 4)
    as (_ & Hother & _).
  split; [exact (proj1 (Hdecl H1))|exact (Hother H2)].
Defined.
